(** * DUCK-E cost protection: session cost ledger and circuit breaker

    A shallow embedding of [src/app/middleware/cost_protection.py]
    ([SessionCostTracker], the module-level Prometheus metrics it updates
    and [CostProtectionMiddleware]) and of its callers in
    [src/app/cost_tracking_wrapper.py], followed by the properties of the
    ledger, of the admission check and of the circuit breaker.

    Modelling conventions.
    - Python [float] values (money, seconds) are exact rationals [Q]; two
      amounts are compared with [==], as Python compares floats by value.
      Rounding and overflow of binary64 are outside this model; the module
      [Binary64] re-runs the cost formula on IEEE doubles for the worked
      example of the test-suite.
    - Python [int] values (token counts, minutes) are [Z].
    - A [datetime] is the number of microseconds since the epoch, a
      [timedelta] a difference of two of them; [datetime.utcnow()] is an
      explicit argument [now] of every operation that reads the clock.
    - Dictionaries keyed by the session id are [gmap string _].
    - The coroutines run to completion one at a time: an operation is a
      function on the whole state that may raise.  Whether a Redis command
      succeeds is chosen by the environment and passed as a boolean.
    - Calls to [logger] do not touch the state and are left out. *)

From Stdlib Require Import ZArith QArith Qminmax Lqa Lia Floats.
From stdpp Require Import gmap strings list fin_maps.

Local Open Scope Z_scope.

(** ** Numbers and time *)

(** [x < y] on floats, as a boolean. *)
Definition Qltb (x y : Q) : bool := negb (Qle_bool y x).

(** [max(0, x)]: Python returns the first argument unless a later one is
    strictly greater. *)
Definition max0 (x : Q) : Q := if Qltb 0 x then x else 0%Q.

Abbreviation datetime := Z (only parsing).

(** [timedelta.total_seconds()] *)
Definition total_seconds (delta : Z) : Q := delta # 1000000.

(** [timedelta(minutes=m)] *)
Definition timedelta_minutes (m : Z) : Z := m * 60 * 1000000.

(** ** Configuration *)

Record CostProtectionConfig := {
  enabled : bool;
  max_session_cost_usd : Q;
  max_session_duration_minutes : Z;
  max_total_cost_per_hour_usd : Q;
  circuit_breaker_threshold_usd : Q;
  circuit_breaker_reset_minutes : Z;
  redis_url : option string;
  gpt5_input_cost_per_1m : Q;
  gpt5_output_cost_per_1m : Q;
  gpt5_mini_input_cost_per_1m : Q;
  gpt5_mini_output_cost_per_1m : Q;
  gpt_realtime_input_cost_per_1m : Q;
  gpt_realtime_output_cost_per_1m : Q
}.

(** The field defaults of [CostProtectionConfig]. *)
Definition default_config : CostProtectionConfig := {|
  enabled := true;
  max_session_cost_usd := 5%Q;
  max_session_duration_minutes := 30;
  max_total_cost_per_hour_usd := 50%Q;
  circuit_breaker_threshold_usd := 100%Q;
  circuit_breaker_reset_minutes := 60;
  redis_url := None;
  gpt5_input_cost_per_1m := 10%Q;
  gpt5_output_cost_per_1m := 30%Q;
  gpt5_mini_input_cost_per_1m := 3%Q;
  gpt5_mini_output_cost_per_1m := 15%Q;
  gpt_realtime_input_cost_per_1m := 100%Q;
  gpt_realtime_output_cost_per_1m := 200%Q
|}.

(** ** State *)

(** The value of [session_tokens[id]]: a dict with keys "input", "output". *)
Record TokenCount := { input : Z; output : Z }.

(** The fields of [SessionCostTracker]. [redis_client] records only whether
    a client was given; the server it talks to is part of [World]. *)
Record SessionCostTracker := {
  redis_client : bool;
  config : CostProtectionConfig;
  session_costs : gmap string Q;
  session_tokens : gmap string TokenCount;
  session_start_times : gmap string datetime;
  circuit_breaker_active : bool;
  circuit_breaker_reset_time : option datetime;
  total_cost_last_hour : Q
}.

(** The module-level Prometheus metrics. A labelled counter is a map from
    the label values to the running total. *)
Record Metrics := {
  api_cost_total : gmap (string * string) Q;
  active_sessions : Z;
  session_duration : list (string * Q);
  token_usage : gmap (string * string) Q;
  budget_exceeded : gmap string Q
}.

(** A field of a Redis hash as the tracker writes it: [isoformat()] of a
    datetime, [str] of a float, [str] of an int. *)
Inductive redis_value :=
| RTime (t : datetime)
| RFloat (x : Q)
| RInt (n : Z).

Inductive redis_cmd :=
| HSET (key : string) (mapping : list (string * redis_value))
| EXPIRE (key : string) (seconds : Z)
| DELETE (key : string).

(** The external store: the hashes, their time to live, and every command
    that was sent to it (also those that failed), latest first. *)
Record Redis := {
  redis_hashes : gmap string (gmap string redis_value);
  redis_ttl : gmap string Z;
  redis_sent : list redis_cmd
}.

Record World := {
  tracker : SessionCostTracker;
  metrics : Metrics;
  redis : Redis
}.

(** *** Field updates *)

Definition set_session_costs (v : gmap string Q) (s : SessionCostTracker) :=
  {| redis_client := redis_client s; config := config s; session_costs := v;
     session_tokens := session_tokens s;
     session_start_times := session_start_times s;
     circuit_breaker_active := circuit_breaker_active s;
     circuit_breaker_reset_time := circuit_breaker_reset_time s;
     total_cost_last_hour := total_cost_last_hour s |}.

Definition set_session_tokens (v : gmap string TokenCount) (s : SessionCostTracker) :=
  {| redis_client := redis_client s; config := config s;
     session_costs := session_costs s; session_tokens := v;
     session_start_times := session_start_times s;
     circuit_breaker_active := circuit_breaker_active s;
     circuit_breaker_reset_time := circuit_breaker_reset_time s;
     total_cost_last_hour := total_cost_last_hour s |}.

Definition set_session_start_times (v : gmap string datetime) (s : SessionCostTracker) :=
  {| redis_client := redis_client s; config := config s;
     session_costs := session_costs s; session_tokens := session_tokens s;
     session_start_times := v;
     circuit_breaker_active := circuit_breaker_active s;
     circuit_breaker_reset_time := circuit_breaker_reset_time s;
     total_cost_last_hour := total_cost_last_hour s |}.

Definition set_circuit_breaker (active : bool) (reset : option datetime)
    (s : SessionCostTracker) :=
  {| redis_client := redis_client s; config := config s;
     session_costs := session_costs s; session_tokens := session_tokens s;
     session_start_times := session_start_times s;
     circuit_breaker_active := active;
     circuit_breaker_reset_time := reset;
     total_cost_last_hour := total_cost_last_hour s |}.

Definition set_api_cost_total (v : gmap (string * string) Q) (m : Metrics) :=
  {| api_cost_total := v; active_sessions := active_sessions m;
     session_duration := session_duration m; token_usage := token_usage m;
     budget_exceeded := budget_exceeded m |}.

Definition set_active_sessions (v : Z) (m : Metrics) :=
  {| api_cost_total := api_cost_total m; active_sessions := v;
     session_duration := session_duration m; token_usage := token_usage m;
     budget_exceeded := budget_exceeded m |}.

Definition set_session_duration (v : list (string * Q)) (m : Metrics) :=
  {| api_cost_total := api_cost_total m; active_sessions := active_sessions m;
     session_duration := v; token_usage := token_usage m;
     budget_exceeded := budget_exceeded m |}.

Definition set_token_usage (v : gmap (string * string) Q) (m : Metrics) :=
  {| api_cost_total := api_cost_total m; active_sessions := active_sessions m;
     session_duration := session_duration m; token_usage := v;
     budget_exceeded := budget_exceeded m |}.

Definition set_budget_exceeded (v : gmap string Q) (m : Metrics) :=
  {| api_cost_total := api_cost_total m; active_sessions := active_sessions m;
     session_duration := session_duration m; token_usage := token_usage m;
     budget_exceeded := v |}.

Definition on_tracker (f : SessionCostTracker -> SessionCostTracker) (w : World) :=
  {| tracker := f (tracker w); metrics := metrics w; redis := redis w |}.

Definition on_metrics (f : Metrics -> Metrics) (w : World) :=
  {| tracker := tracker w; metrics := f (metrics w); redis := redis w |}.

Definition on_redis (f : Redis -> Redis) (w : World) :=
  {| tracker := tracker w; metrics := metrics w; redis := f (redis w) |}.

(** ** Effects: state and exceptions *)

Inductive exn :=
| ValueError
| ConnectionError.

Inductive outcome (A : Type) :=
| Returned (a : A)
| Raised (e : exn).
Arguments Returned {A} a.
Arguments Raised {A} e.

(** A computation changes the world and returns or raises; the changes made
    before an exception is raised stay. *)
Definition M (A : Type) : Type := World -> World * outcome A.

#[export] Instance M_ret : MRet M := fun A a w => (w, Returned a).

#[export] Instance M_bind : MBind M := fun A B k c w =>
  match c w with
  | (w', Returned a) => k a w'
  | (w', Raised e) => (w', Raised e)
  end.

Definition raise {A} (e : exn) : M A := fun w => (w, Raised e).

Definition update (f : World -> World) : M unit := fun w => (f w, Returned tt).

Definition self : M SessionCostTracker := fun w => (w, Returned (tracker w)).

(** [try: body except Exception: pass] (the handlers only log). *)
Definition try_except (body : M unit) : M unit := fun w =>
  match body w with
  | (w', Returned u) => (w', Returned u)
  | (w', Raised _) => (w', Returned tt)
  end.

(** *** Prometheus *)

(** [Counter.labels(..).inc(amount)]. prometheus_client refuses a negative
    amount: [Counter.inc] raises [ValueError] ("Counters can only be
    incremented by non-negative amounts"). *)
Definition Counter_inc `{Countable K} (labels : K) (amount : Q)
    (c : gmap K Q) : outcome (gmap K Q) :=
  if Qltb amount 0 then Raised ValueError
  else Returned (<[labels := (default 0%Q (c !! labels) + amount)%Q]> c).

Definition api_cost_total_inc (model session_id : string) (amount : Q) : M unit :=
  fun w =>
    match Counter_inc (model, session_id) amount (api_cost_total (metrics w)) with
    | Returned c => (on_metrics (set_api_cost_total c) w, Returned tt)
    | Raised e => (w, Raised e)
    end.

Definition token_usage_inc (model type : string) (amount : Q) : M unit :=
  fun w =>
    match Counter_inc (model, type) amount (token_usage (metrics w)) with
    | Returned c => (on_metrics (set_token_usage c) w, Returned tt)
    | Raised e => (w, Raised e)
    end.

Definition budget_exceeded_inc (session_id : string) : M unit :=
  fun w =>
    match Counter_inc session_id 1%Q (budget_exceeded (metrics w)) with
    | Returned c => (on_metrics (set_budget_exceeded c) w, Returned tt)
    | Raised e => (w, Raised e)
    end.

(** [Gauge.inc()], [Gauge.dec()], [Histogram.labels(status).observe(v)] *)
Definition active_sessions_inc : M unit :=
  update (on_metrics (fun m => set_active_sessions (active_sessions m + 1) m)).

Definition active_sessions_dec : M unit :=
  update (on_metrics (fun m => set_active_sessions (active_sessions m - 1) m)).

Definition session_duration_observe (status : string) (v : Q) : M unit :=
  update (on_metrics (fun m => set_session_duration ((status, v) :: session_duration m) m)).

(** *** Redis *)

Definition redis_apply (c : redis_cmd) (r : Redis) : Redis :=
  match c with
  | HSET key mapping =>
      {| redis_hashes :=
           <[key := list_to_map mapping ∪ default ∅ (redis_hashes r !! key)]>
             (redis_hashes r);
         redis_ttl := redis_ttl r; redis_sent := redis_sent r |}
  | EXPIRE key seconds =>
      {| redis_hashes := redis_hashes r;
         redis_ttl := <[key := seconds]> (redis_ttl r);
         redis_sent := redis_sent r |}
  | DELETE key =>
      {| redis_hashes := delete key (redis_hashes r);
         redis_ttl := delete key (redis_ttl r); redis_sent := redis_sent r |}
  end.

Definition redis_note (c : redis_cmd) (r : Redis) : Redis :=
  {| redis_hashes := redis_hashes r; redis_ttl := redis_ttl r;
     redis_sent := c :: redis_sent r |}.

(** [await self.redis_client.<command>(..)]: the command is sent; it takes
    effect when the store answers ([ok]) and raises otherwise. *)
Definition redis_call (ok : bool) (c : redis_cmd) : M unit := fun w =>
  if ok then (on_redis (fun r => redis_apply c (redis_note c r)) w, Returned tt)
  else (on_redis (redis_note c) w, Raised ConnectionError).

Definition session_key (session_id : string) : string := "session:" +:+ session_id.

(** ** The tracker *)

(** [SessionCostTracker(redis_client)] with configuration [cfg], in a process
    whose metrics are untouched and a store that holds nothing. *)
Definition init_tracker (client : bool) (cfg : CostProtectionConfig) : SessionCostTracker := {|
  redis_client := client;
  config := cfg;
  session_costs := ∅;
  session_tokens := ∅;
  session_start_times := ∅;
  circuit_breaker_active := false;
  circuit_breaker_reset_time := None;
  total_cost_last_hour := 0%Q
|}.

Definition init (client : bool) (cfg : CostProtectionConfig) : World := {|
  tracker := init_tracker client cfg;
  metrics := {| api_cost_total := ∅; active_sessions := 0; session_duration := [];
                token_usage := ∅; budget_exceeded := ∅ |};
  redis := {| redis_hashes := ∅; redis_ttl := ∅; redis_sent := [] |}
|}.

(** [start_session]: [hset_ok] and [expire_ok] say whether the two Redis
    commands succeed. *)
Definition start_session (session_id : string) (now : datetime)
    (hset_ok expire_ok : bool) : M unit :=
  update (on_tracker (fun s =>
    set_session_start_times (<[session_id := now]> (session_start_times s)) s));;
  update (on_tracker (fun s =>
    set_session_costs (<[session_id := 0%Q]> (session_costs s)) s));;
  active_sessions_inc;;
  s ← self;
  (if redis_client s then
     try_except (
       redis_call hset_ok (HSET (session_key session_id)
         [("start_time", RTime now); ("cost", RFloat 0);
          ("input_tokens", RInt 0); ("output_tokens", RInt 0)]);;
       redis_call expire_ok (EXPIRE (session_key session_id)
         (max_session_duration_minutes (config s) * 60 + 300)))
   else mret tt).

(** [end_session] *)
Definition end_session (session_id : string) (now : datetime)
    (delete_ok : bool) : M unit :=
  s ← self;
  match session_start_times s !! session_id with
  | Some started =>
      let duration := total_seconds (now - started) in
      session_duration_observe "completed" duration;;
      active_sessions_dec;;
      update (on_tracker (fun s =>
        set_session_start_times (delete session_id (session_start_times s)) s));;
      update (on_tracker (fun s =>
        set_session_costs (delete session_id (session_costs s)) s));;
      update (on_tracker (fun s =>
        set_session_tokens (delete session_id (session_tokens s)) s));;
      (if redis_client s then
         try_except (redis_call delete_ok (DELETE (session_key session_id)))
       else mret tt)
  | None => mret tt
  end.

(** The rates [calculate_cost] picks for a model: the chain of comparisons
    on the model name, ending in the gpt-5-mini rates. *)
Definition model_rates (cfg : CostProtectionConfig) (model : string) : Q * Q :=
  if String.eqb model "gpt-5" then
    (gpt5_input_cost_per_1m cfg, gpt5_output_cost_per_1m cfg)
  else if String.eqb model "gpt-5-mini" then
    (gpt5_mini_input_cost_per_1m cfg, gpt5_mini_output_cost_per_1m cfg)
  else if String.eqb model "gpt-realtime" then
    (gpt_realtime_input_cost_per_1m cfg, gpt_realtime_output_cost_per_1m cfg)
  else
    (gpt5_mini_input_cost_per_1m cfg, gpt5_mini_output_cost_per_1m cfg).

(** [calculate_cost]: reads the configuration only, writes nothing and has
    no statement that raises. *)
Definition calculate_cost (s : SessionCostTracker) (model : string)
    (input_tokens output_tokens : Z) : Q :=
  let cfg := config s in
  let '(input_cost_per_1m, output_cost_per_1m) := model_rates cfg model in
  let input_cost := (inject_Z input_tokens / 1000000 * input_cost_per_1m)%Q in
  let output_cost := (inject_Z output_tokens / 1000000 * output_cost_per_1m)%Q in
  let total_cost := (input_cost + output_cost)%Q in
  total_cost.

(** The dict [check_budget] returns. *)
Record BudgetStatus := {
  budget_ok : bool;
  remaining_budget_usd : Q;
  remaining_duration_seconds : Q;
  circuit_breaker_active_now : bool;
  warnings : list string
}.

(** [_get_warnings] *)
Definition _get_warnings (budget_ok duration_ok circuit_breaker_ok : bool) : list string :=
  let warnings := [] in
  let warnings :=
    if negb budget_ok then warnings ++ ["Session budget limit exceeded"] else warnings in
  let warnings :=
    if negb duration_ok then warnings ++ ["Session duration limit exceeded"] else warnings in
  let warnings :=
    if negb circuit_breaker_ok then warnings ++ ["System-wide circuit breaker is active"]
    else warnings in
  warnings.

(** The duration part of [check_budget]: whether the session is within its
    time, and the time it has left (before the clamp). *)
Definition duration_check (s : SessionCostTracker) (session_id : string)
    (now : datetime) : bool * Q :=
  match session_start_times s !! session_id with
  | Some started =>
      let duration := total_seconds (now - started) in
      let max_duration_seconds := max_session_duration_minutes (config s) * 60 in
      (Qltb duration (inject_Z max_duration_seconds),
       (inject_Z max_duration_seconds - duration)%Q)
  | None => (true, inject_Z (max_session_duration_minutes (config s) * 60))
  end.

(** [check_budget] *)
Definition check_budget (session_id : string) (current_cost : Q)
    (now : datetime) : M BudgetStatus :=
  s ← self;
  let cfg := config s in
  let budget_ok := Qltb current_cost (max_session_cost_usd cfg) in
  let remaining_budget := (max_session_cost_usd cfg - current_cost)%Q in
  let '(duration_ok, remaining_duration) := duration_check s session_id now in
  let circuit_breaker_ok := negb (circuit_breaker_active s) in
  let overall_ok := budget_ok && duration_ok && circuit_breaker_ok in
  (if negb overall_ok then budget_exceeded_inc session_id else mret tt);;
  mret {| budget_ok := overall_ok;
          remaining_budget_usd := max0 remaining_budget;
          remaining_duration_seconds := max0 remaining_duration;
          circuit_breaker_active_now := circuit_breaker_active s;
          warnings := _get_warnings budget_ok duration_ok circuit_breaker_ok |}.

(** The dict [track_usage] returns: the usage, then the budget status. *)
Record UsageResult := {
  session_id_of : string;
  model_of : string;
  input_tokens_of : Z;
  output_tokens_of : Z;
  call_cost : Q;
  session_cost : Q;
  status : BudgetStatus
}.

(** [self.session_tokens[session_id]]: the [defaultdict] yields a fresh
    count for an id it does not hold (and then holds it). *)
Definition tokens_of (session_id : string) (m : gmap string TokenCount) : TokenCount :=
  default {| input := 0; output := 0 |} (m !! session_id).

Definition add_input (session_id : string) (n : Z) (m : gmap string TokenCount) :=
  <[session_id := {| input := input (tokens_of session_id m) + n;
                     output := output (tokens_of session_id m) |}]> m.

Definition add_output (session_id : string) (n : Z) (m : gmap string TokenCount) :=
  <[session_id := {| input := input (tokens_of session_id m);
                     output := output (tokens_of session_id m) + n |}]> m.

(** [track_usage] *)
Definition track_usage (session_id model : string) (input_tokens output_tokens : Z)
    (now : datetime) (hset_ok : bool) : M UsageResult :=
  s ← self;
  let cost := calculate_cost s model input_tokens output_tokens in
  let current_cost := default 0%Q (session_costs s !! session_id) in
  let new_cost := (current_cost + cost)%Q in
  update (on_tracker (fun s =>
    set_session_costs (<[session_id := new_cost]> (session_costs s)) s));;
  update (on_tracker (fun s =>
    set_session_tokens (add_input session_id input_tokens (session_tokens s)) s));;
  update (on_tracker (fun s =>
    set_session_tokens (add_output session_id output_tokens (session_tokens s)) s));;
  api_cost_total_inc model session_id cost;;
  token_usage_inc model "input" (inject_Z input_tokens);;
  token_usage_inc model "output" (inject_Z output_tokens);;
  s' ← self;
  (if redis_client s' then
     try_except (
       redis_call hset_ok (HSET (session_key session_id)
         [("cost", RFloat new_cost);
          ("input_tokens", RInt (input (tokens_of session_id (session_tokens s'))));
          ("output_tokens", RInt (output (tokens_of session_id (session_tokens s'))))]))
   else mret tt);;
  budget_status ← check_budget session_id new_cost now;
  mret {| session_id_of := session_id;
          model_of := model;
          input_tokens_of := input_tokens;
          output_tokens_of := output_tokens;
          call_cost := cost;
          session_cost := new_cost;
          status := budget_status |}.

(** [activate_circuit_breaker] *)
Definition activate_circuit_breaker (now : datetime) : M unit :=
  update (on_tracker (fun s =>
    set_circuit_breaker true
      (Some (now + timedelta_minutes (circuit_breaker_reset_minutes (config s)))) s)).

(** [check_circuit_breaker]: a [datetime] is always true as a condition, so
    [and self.circuit_breaker_reset_time] asks whether it is not [None]. *)
Definition check_circuit_breaker (now : datetime) : M unit :=
  s ← self;
  match circuit_breaker_active s, circuit_breaker_reset_time s with
  | true, Some reset_time =>
      if reset_time <=? now
      then update (on_tracker (set_circuit_breaker false None))
      else mret tt
  | _, _ => mret tt
  end.

(** ** Runs: the operations a caller can invoke, one after the other *)

Inductive op :=
| StartSession (session_id : string) (now : datetime) (hset_ok expire_ok : bool)
| EndSession (session_id : string) (now : datetime) (delete_ok : bool)
| TrackUsage (session_id model : string) (input_tokens output_tokens : Z)
    (now : datetime) (hset_ok : bool)
| CheckBudget (session_id : string) (current_cost : Q) (now : datetime)
| ActivateCircuitBreaker (now : datetime)
| CheckCircuitBreaker (now : datetime).

(** The world after an operation, whether it returned or raised. *)
Definition step (o : op) (w : World) : World :=
  match o with
  | StartSession id now h e => fst (start_session id now h e w)
  | EndSession id now d => fst (end_session id now d w)
  | TrackUsage id model i o now h => fst (track_usage id model i o now h w)
  | CheckBudget id c now => fst (check_budget id c now w)
  | ActivateCircuitBreaker now => fst (activate_circuit_breaker now w)
  | CheckCircuitBreaker now => fst (check_circuit_breaker now w)
  end.

Definition run (ops : list op) (w : World) : World :=
  fold_left (fun w o => step o w) ops w.

(** ** Closed forms used to state the properties *)

(** What [check_budget] returns, as a function of the three things it reads:
    the configuration, the start time of the session (if any) and the
    breaker flag. [check_budget_eq] below proves that it is this. *)
Definition budget_status (cfg : CostProtectionConfig) (started : option datetime)
    (active : bool) (current_cost : Q) (now : datetime) : BudgetStatus :=
  let budget_ok := Qltb current_cost (max_session_cost_usd cfg) in
  let max_duration_seconds := inject_Z (max_session_duration_minutes cfg * 60) in
  let duration_ok :=
    match started with
    | Some t => Qltb (total_seconds (now - t)) max_duration_seconds
    | None => true
    end in
  let remaining_duration :=
    match started with
    | Some t => (max_duration_seconds - total_seconds (now - t))%Q
    | None => max_duration_seconds
    end in
  {| budget_ok := budget_ok && duration_ok && negb active;
     remaining_budget_usd := max0 (max_session_cost_usd cfg - current_cost);
     remaining_duration_seconds := max0 remaining_duration;
     circuit_breaker_active_now := active;
     warnings := _get_warnings budget_ok duration_ok (negb active) |}.

(** The world after [budget_exceeded.labels(session_id).inc()]. *)
Definition note_violation (session_id : string) (w : World) : World :=
  on_metrics (fun m =>
    set_budget_exceeded
      (<[session_id := (default 0%Q (budget_exceeded m !! session_id) + 1)%Q]>
         (budget_exceeded m)) m) w.

(** The tracker after the three ledger writes that open [track_usage]. *)
Definition ledger_after (session_id model : string) (input_tokens output_tokens : Z)
    (s : SessionCostTracker) : SessionCostTracker :=
  set_session_tokens
    (add_output session_id output_tokens
       (add_input session_id input_tokens (session_tokens s)))
    (set_session_costs
       (<[session_id := (default 0%Q (session_costs s !! session_id)
                         + calculate_cost s model input_tokens output_tokens)%Q]>
          (session_costs s)) s).

(** Whether one of the three counter increments of [track_usage] is given a
    negative amount. *)
Definition counters_refuse (cost : Q) (input_tokens output_tokens : Z) : bool :=
  Qltb cost 0 || Qltb (inject_Z input_tokens) 0 || Qltb (inject_Z output_tokens) 0.

(** The recorded cost of a session, [0] when there is none:
    [session_costs.get(session_id, 0.0)]. *)
Definition cost_of (s : SessionCostTracker) (session_id : string) : Q :=
  default 0%Q (session_costs s !! session_id).

(** The pricing table in the words of the specification: a mapping from the
    model identifier to the two rates, and one fallback entry. *)
Definition pricing_table (cfg : CostProtectionConfig) : list (string * (Q * Q)) :=
  [("gpt-5", (gpt5_input_cost_per_1m cfg, gpt5_output_cost_per_1m cfg));
   ("gpt-5-mini", (gpt5_mini_input_cost_per_1m cfg, gpt5_mini_output_cost_per_1m cfg));
   ("gpt-realtime", (gpt_realtime_input_cost_per_1m cfg, gpt_realtime_output_cost_per_1m cfg))].

Definition fallback_entry (cfg : CostProtectionConfig) : Q * Q :=
  (gpt5_mini_input_cost_per_1m cfg, gpt5_mini_output_cost_per_1m cfg).

Fixpoint assoc (model : string) (table : list (string * (Q * Q))) : option (Q * Q) :=
  match table with
  | [] => None
  | (name, entry) :: rest => if String.eqb model name then Some entry else assoc model rest
  end.

Definition pricing_entry (cfg : CostProtectionConfig) (model : string) : Q * Q :=
  default (fallback_entry cfg) (assoc model (pricing_table cfg)).

(** The cost formula of the specification for one pricing entry. *)
Definition priced (entry : Q * Q) (input_units output_units : Z) : Q :=
  (inject_Z input_units / 1000000 * fst entry
   + inject_Z output_units / 1000000 * snd entry)%Q.

(** All the rates of a configuration are non-negative. *)
Definition rates_nonneg (cfg : CostProtectionConfig) : Prop :=
  (0 <= gpt5_input_cost_per_1m cfg /\ 0 <= gpt5_output_cost_per_1m cfg /\
   0 <= gpt5_mini_input_cost_per_1m cfg /\ 0 <= gpt5_mini_output_cost_per_1m cfg /\
   0 <= gpt_realtime_input_cost_per_1m cfg /\ 0 <= gpt_realtime_output_cost_per_1m cfg)%Q.

(** The breaker invariant of the specification. *)
Definition breaker_inv (s : SessionCostTracker) : Prop :=
  circuit_breaker_active s = false -> circuit_breaker_reset_time s = None.

(** Whether the last [start_session] or [end_session] for [session_id] in a
    run was a [start_session]; [opened] is the answer before the run. *)
Definition session_open_from (opened : bool) (ops : list op) (session_id : string) : bool :=
  fold_left (fun b o =>
    match o with
    | StartSession id _ _ _ => if String.eqb id session_id then true else b
    | EndSession id _ _ => if String.eqb id session_id then false else b
    | _ => b
    end) ops opened.

Definition session_open (ops : list op) (session_id : string) : bool :=
  session_open_from false ops session_id.

(** A session has an entry in one of the three ledger maps. *)
Definition has_entry (s : SessionCostTracker) (session_id : string) : Prop :=
  is_Some (session_costs s !! session_id) \/
  is_Some (session_tokens s !! session_id) \/
  is_Some (session_start_times s !! session_id).

(** A [track_usage] call for a session other than [session_id]. *)
Definition usage_of_other (session_id : string) (o : op) : Prop :=
  match o with
  | TrackUsage id _ _ _ _ _ => id <> session_id
  | _ => False
  end.

(** Two trackers agree on everything a [track_usage] call for [session_id]
    reads. *)
Definition same_for (session_id : string) (s1 s2 : SessionCostTracker) : Prop :=
  config s1 = config s2 /\
  session_costs s1 !! session_id = session_costs s2 !! session_id /\
  session_tokens s1 !! session_id = session_tokens s2 !! session_id /\
  session_start_times s1 !! session_id = session_start_times s2 !! session_id /\
  circuit_breaker_active s1 = circuit_breaker_active s2.

(** A [track_usage] call whose token counts are not negative. *)
Definition usage_nonneg (o : op) : Prop :=
  match o with
  | TrackUsage _ _ i o _ _ => 0 <= i /\ 0 <= o
  | _ => False
  end.

(** ** The callers of the tracker *)

(** [check_budget_before_call] of [cost_tracking_wrapper.py]: the admission
    check at the cost the ledger holds for the session. *)
Definition check_budget_before_call (session_id : string) (now : datetime) : M bool :=
  s ← self;
  budget_status ← check_budget session_id
                    (default 0%Q (session_costs s !! session_id)) now;
  if negb (budget_ok budget_status) then mret false else mret true.

(** What [CostProtectionMiddleware.__call__] did with a request: it handed
    it to the wrapped application, or it answered 503 itself with the reset
    time of the breaker in the body. *)
Inductive asgi_outcome :=
| Forwarded
| Rejected503 (reset_time : option datetime).

(** [CostProtectionMiddleware.__call__]: [enabled] is the flag of the
    middleware's own configuration, [scope_type] is [scope["type"]] and
    [app] the wrapped application. *)
Definition CostProtectionMiddleware_call (enabled : bool) (scope_type : string)
    (now : datetime) (app : M unit) : M asgi_outcome :=
  if negb enabled then app;; mret Forwarded
  else
    check_circuit_breaker now;;
    s ← self;
    if circuit_breaker_active s then
      if String.eqb scope_type "http"
      then mret (Rejected503 (circuit_breaker_reset_time s))
      else app;; mret Forwarded
    else app;; mret Forwarded.



(** The usage the weather functions of [main_with_rate_limiting.py] report
    for a response of [text_len] characters:
    [track_usage(session_id, "external-api", 50, len(response.text) // 4)]. *)
Definition track_external_api_usage (session_id : string) (text_len : nat)
    (now : datetime) (hset_ok : bool) : M UsageResult :=
  track_usage session_id "external-api" 50 (Z.of_nat text_len / 4) now hset_ok.

(** The outcome of the middleware when it hands the request to [app]: the
    world [app] leaves, and [Forwarded] unless [app] raised. *)
Definition forwarded (c : World * outcome unit) : World * outcome asgi_outcome :=
  (fst c, match snd c with
          | Returned _ => Returned Forwarded
          | Raised e => Raised e
          end).

(** ** Quantities over a run *)

(** How many tests of [check_budget] fail. *)
Definition failed_tests (budget_ok duration_ok circuit_breaker_ok : bool) : nat :=
  ((if budget_ok then 0 else 1) + (if duration_ok then 0 else 1)
   + (if circuit_breaker_ok then 0 else 1))%nat.

(** The [start_session] calls of a run that hit a session already open. *)
Fixpoint restarts (ops : list op) (w : World) : Z :=
  match ops with
  | [] => 0
  | o :: rest =>
      match o with
      | StartSession id _ _ _ =>
          match session_start_times (tracker w) !! id with
          | Some _ => 1
          | None => 0
          end
      | _ => 0
      end + restarts rest (step o w)
  end.






(** Every session with a start time or a token count has a cost. *)
Definition ledger_wf (s : SessionCostTracker) : Prop :=
  forall id,
    is_Some (session_start_times s !! id) \/ is_Some (session_tokens s !! id) ->
    is_Some (session_costs s !! id).

(** An operation that leaves an open breaker and its reset time [reset] as
    they are: anything but an activation or a poll at or after [reset]. *)
Definition quiet_before (reset : datetime) (o : op) : Prop :=
  match o with
  | CheckCircuitBreaker now => now < reset
  | ActivateCircuitBreaker _ => False
  | _ => True
  end.

(** ** The cost formula on IEEE doubles *)

Module Binary64.

(** [float(n)] for an [int] of magnitude below [2^53] (where the conversion
    is exact, so that [n / 1_000_000] is the quotient of the two doubles). *)
Definition of_int (n : Z) : float :=
  if n <? 0 then PrimFloat.opp (PrimFloat.of_uint63 (Uint63.of_Z (- n)))
  else PrimFloat.of_uint63 (Uint63.of_Z n).

(** The default rates, chosen as [calculate_cost] chooses them. *)
Definition model_rates (model : string) : float * float :=
  if String.eqb model "gpt-5" then (10, 30)%float
  else if String.eqb model "gpt-5-mini" then (3, 15)%float
  else if String.eqb model "gpt-realtime" then (100, 200)%float
  else (3, 15)%float.

Definition calculate_cost (model : string) (input_tokens output_tokens : Z) : float :=
  let '(input_cost_per_1m, output_cost_per_1m) := model_rates model in
  let input_cost := (of_int input_tokens / 1000000 * input_cost_per_1m)%float in
  let output_cost := (of_int output_tokens / 1000000 * output_cost_per_1m)%float in
  (input_cost + output_cost)%float.

End Binary64.

(** * Properties *)

(** ** Comparisons and the clamp *)

Lemma Qltb_lt (x y : Q) : Qltb x y = true <-> (x < y)%Q.
Proof.
  unfold Qltb. rewrite negb_true_iff. split.
  - intros H. apply Qnot_le_lt. intros Hle.
    apply Qle_bool_iff in Hle. congruence.
  - intros H. destruct (Qle_bool y x) eqn:E; [|reflexivity].
    apply Qle_bool_iff in E. lra.
Qed.

Lemma Qltb_ge (x y : Q) : Qltb x y = false <-> (y <= x)%Q.
Proof.
  split.
  - intros H. apply Qnot_lt_le. intros Hlt.
    apply Qltb_lt in Hlt. congruence.
  - intros H. destruct (Qltb x y) eqn:E; [|reflexivity].
    apply Qltb_lt in E. lra.
Qed.

Lemma max0_nonneg (x : Q) : (0 <= max0 x)%Q.
Proof.
  unfold max0. destruct (Qltb 0 x) eqn:E.
  - apply Qltb_lt in E. lra.
  - lra.
Qed.

Lemma max0_Qmax (x : Q) : (max0 x == Qmax 0 x)%Q.
Proof.
  unfold max0. destruct (Qltb 0 x) eqn:E.
  - apply Qltb_lt in E. symmetry. apply Q.max_r. lra.
  - apply Qltb_ge in E. symmetry. apply Q.max_l. lra.
Qed.

Lemma max0_pos (x : Q) : (0 <= x)%Q -> (max0 x == x)%Q.
Proof.
  intros H. unfold max0. destruct (Qltb 0 x) eqn:E; [reflexivity|].
  apply Qltb_ge in E. lra.
Qed.

Lemma inject_Z_nonneg (n : Z) : 0 <= n -> (0 <= inject_Z n)%Q.
Proof. intros H. change 0%Q with (inject_Z 0). rewrite <- Zle_Qle. exact H. Qed.

(** ** The cost calculator *)

Lemma model_rates_entry (cfg : CostProtectionConfig) (model : string) :
  model_rates cfg model = pricing_entry cfg model.
Proof.
  unfold model_rates, pricing_entry, pricing_table, fallback_entry. simpl.
  destruct (String.eqb model "gpt-5"); [reflexivity|].
  destruct (String.eqb model "gpt-5-mini"); [reflexivity|].
  destruct (String.eqb model "gpt-realtime"); reflexivity.
Qed.

Lemma calculate_cost_priced (s : SessionCostTracker) (model : string) (i o : Z) :
  calculate_cost s model i o = priced (pricing_entry (config s) model) i o.
Proof.
  unfold calculate_cost. rewrite model_rates_entry.
  destruct (pricing_entry (config s) model) as [rin rout]. reflexivity.
Qed.

Lemma pricing_entry_nonneg (cfg : CostProtectionConfig) (model : string) :
  rates_nonneg cfg ->
  (0 <= fst (pricing_entry cfg model) /\ 0 <= snd (pricing_entry cfg model))%Q.
Proof.
  intros (H1 & H2 & H3 & H4 & H5 & H6).
  rewrite <- model_rates_entry. unfold model_rates.
  destruct (String.eqb model "gpt-5"); [simpl; auto|].
  destruct (String.eqb model "gpt-5-mini"); [simpl; auto|].
  destruct (String.eqb model "gpt-realtime"); simpl; auto.
Qed.

Lemma priced_nonneg (entry : Q * Q) (i o : Z) :
  (0 <= fst entry)%Q -> (0 <= snd entry)%Q -> 0 <= i -> 0 <= o ->
  (0 <= priced entry i o)%Q.
Proof.
  intros Hin Hout Hi Ho. unfold priced.
  apply inject_Z_nonneg in Hi, Ho.
  assert (0 <= inject_Z i / 1000000)%Q by (apply Qle_shift_div_l; lra).
  assert (0 <= inject_Z o / 1000000)%Q by (apply Qle_shift_div_l; lra).
  assert (0 <= inject_Z i / 1000000 * fst entry)%Q by (apply Qmult_le_0_compat; assumption).
  assert (0 <= inject_Z o / 1000000 * snd entry)%Q by (apply Qmult_le_0_compat; assumption).
  lra.
Qed.

Lemma calculate_cost_nonneg (s : SessionCostTracker) (model : string) (i o : Z) :
  rates_nonneg (config s) -> 0 <= i -> 0 <= o ->
  (0 <= calculate_cost s model i o)%Q.
Proof.
  intros Hr Hi Ho. rewrite calculate_cost_priced.
  destruct (pricing_entry_nonneg (config s) model Hr).
  apply priced_nonneg; assumption.
Qed.

(** ** What each operation does to the world *)

Ltac unfold_M :=
  unfold mbind, mret, M_bind, M_ret, self, update, try_except, raise in *.

Lemma budget_exceeded_inc_eq (id : string) (w : World) :
  budget_exceeded_inc id w = (note_violation id w, Returned tt).
Proof. reflexivity. Qed.

Lemma check_budget_eq (id : string) (c : Q) (now : datetime) (w : World) :
  let st := budget_status (config (tracker w)) (session_start_times (tracker w) !! id)
              (circuit_breaker_active (tracker w)) c now in
  check_budget id c now w =
  (if budget_ok st then w else note_violation id w, Returned st).
Proof.
  unfold check_budget, duration_check, budget_status.
  unfold_M. cbn.
  destruct (session_start_times (tracker w) !! id); cbn;
    match goal with |- context [negb ?b] => destruct b end; reflexivity.
Qed.

Lemma check_budget_tracker (id : string) (c : Q) (now : datetime) (w : World) :
  tracker (fst (check_budget id c now w)) = tracker w.
Proof.
  rewrite check_budget_eq. cbn.
  match goal with |- context [if ?b then _ else _] => destruct b end; reflexivity.
Qed.

Lemma track_usage_outcome (id m : string) (i o : Z) (now : datetime) (h : bool) (w : World) :
  let s := tracker w in
  let cost := calculate_cost s m i o in
  let new_cost := (cost_of s id + cost)%Q in
  snd (track_usage id m i o now h w) =
  if counters_refuse cost i o then Raised ValueError
  else Returned {|
         session_id_of := id; model_of := m;
         input_tokens_of := i; output_tokens_of := o;
         call_cost := cost; session_cost := new_cost;
         status := budget_status (config s) (session_start_times s !! id)
                     (circuit_breaker_active s) new_cost now |}.
Proof.
  unfold track_usage, api_cost_total_inc, token_usage_inc, Counter_inc,
    redis_call, counters_refuse, cost_of.
  unfold_M. cbn.
  destruct (Qltb (calculate_cost (tracker w) m i o) 0); cbn; [reflexivity|].
  destruct (Qltb (inject_Z i) 0); cbn; [reflexivity|].
  destruct (Qltb (inject_Z o) 0); cbn; [reflexivity|].
  destruct (redis_client (tracker w)); [destruct h|]; cbn;
    rewrite check_budget_eq; reflexivity.
Qed.

Lemma track_usage_tracker (id m : string) (i o : Z) (now : datetime) (h : bool) (w : World) :
  tracker (fst (track_usage id m i o now h w)) = ledger_after id m i o (tracker w).
Proof.
  unfold track_usage, api_cost_total_inc, token_usage_inc, Counter_inc, redis_call.
  unfold_M. cbn.
  destruct (Qltb (calculate_cost (tracker w) m i o) 0); cbn; [reflexivity|].
  destruct (Qltb (inject_Z i) 0); cbn; [reflexivity|].
  destruct (Qltb (inject_Z o) 0); cbn; [reflexivity|].
  destruct (redis_client (tracker w)); [destruct h|]; cbn;
    rewrite check_budget_eq; cbn;
    match goal with |- context [if ?b then _ else _] => destruct b end; reflexivity.
Qed.

Lemma start_session_tracker (id : string) (now : datetime) (h e : bool) (w : World) :
  tracker (fst (start_session id now h e w)) =
  set_session_costs (<[id := 0%Q]> (session_costs (tracker w)))
    (set_session_start_times (<[id := now]> (session_start_times (tracker w))) (tracker w)).
Proof.
  unfold start_session, active_sessions_inc, redis_call. unfold_M. cbn.
  destruct (redis_client (tracker w)); [destruct h; [destruct e|]|]; reflexivity.
Qed.

Lemma start_session_returns (id : string) (now : datetime) (h e : bool) (w : World) :
  snd (start_session id now h e w) = Returned tt.
Proof.
  unfold start_session, active_sessions_inc, redis_call. unfold_M. cbn.
  destruct (redis_client (tracker w)); [destruct h; [destruct e|]|]; reflexivity.
Qed.

Lemma end_session_unknown (id : string) (now : datetime) (d : bool) (w : World) :
  session_start_times (tracker w) !! id = None ->
  end_session id now d w = (w, Returned tt).
Proof.
  intros H. unfold end_session. unfold_M. cbn. rewrite H. reflexivity.
Qed.

Lemma end_session_tracker (id : string) (now : datetime) (d : bool) (w : World) :
  is_Some (session_start_times (tracker w) !! id) ->
  tracker (fst (end_session id now d w)) =
  set_session_tokens (delete id (session_tokens (tracker w)))
    (set_session_costs (delete id (session_costs (tracker w)))
       (set_session_start_times (delete id (session_start_times (tracker w))) (tracker w))).
Proof.
  intros [t H]. unfold end_session, session_duration_observe, active_sessions_dec, redis_call.
  unfold_M. cbn. rewrite H. cbn.
  destruct (redis_client (tracker w)); [destruct d|]; reflexivity.
Qed.

Lemma end_session_returns (id : string) (now : datetime) (d : bool) (w : World) :
  snd (end_session id now d w) = Returned tt.
Proof.
  unfold end_session, session_duration_observe, active_sessions_dec, redis_call.
  unfold_M. cbn.
  destruct (session_start_times (tracker w) !! id); cbn; [|reflexivity].
  destruct (redis_client (tracker w)); [destruct d|]; reflexivity.
Qed.

Lemma activate_eq (now : datetime) (w : World) :
  activate_circuit_breaker now w =
  (on_tracker (set_circuit_breaker true
     (Some (now + timedelta_minutes (circuit_breaker_reset_minutes (config (tracker w))))))
     w, Returned tt).
Proof. reflexivity. Qed.

Lemma check_circuit_breaker_eq (now : datetime) (w : World) :
  check_circuit_breaker now w =
  (match circuit_breaker_active (tracker w), circuit_breaker_reset_time (tracker w) with
   | true, Some reset_time =>
       if reset_time <=? now then on_tracker (set_circuit_breaker false None) w else w
   | _, _ => w
   end, Returned tt).
Proof.
  unfold check_circuit_breaker. unfold_M. cbn.
  destruct (circuit_breaker_active (tracker w)); [|reflexivity].
  destruct (circuit_breaker_reset_time (tracker w)) as [t|]; [|reflexivity].
  destruct (t <=? now); reflexivity.
Qed.

(** *** Steps *)

Lemma step_start_times (o : op) (w : World) :
  session_start_times (tracker (step o w)) =
  match o with
  | StartSession id now _ _ => <[id := now]> (session_start_times (tracker w))
  | EndSession id _ _ => delete id (session_start_times (tracker w))
  | _ => session_start_times (tracker w)
  end.
Proof.
  destruct o; cbn [step].
  - rewrite start_session_tracker. reflexivity.
  - destruct (session_start_times (tracker w) !! session_id) eqn:E.
    + rewrite end_session_tracker by eauto. reflexivity.
    + rewrite end_session_unknown by assumption. cbn.
      symmetry. apply delete_id. assumption.
  - rewrite track_usage_tracker. reflexivity.
  - rewrite check_budget_tracker. reflexivity.
  - reflexivity.
  - rewrite check_circuit_breaker_eq. cbn.
    destruct (circuit_breaker_active (tracker w)); [|reflexivity].
    destruct (circuit_breaker_reset_time (tracker w)) as [t|]; [|reflexivity].
    destruct (t <=? now); reflexivity.
Qed.

Lemma step_config (o : op) (w : World) :
  config (tracker (step o w)) = config (tracker w) /\
  redis_client (tracker (step o w)) = redis_client (tracker w).
Proof.
  destruct o; cbn [step].
  - rewrite start_session_tracker. split; reflexivity.
  - destruct (session_start_times (tracker w) !! session_id) eqn:E.
    + rewrite end_session_tracker by eauto. split; reflexivity.
    + rewrite end_session_unknown by assumption. split; reflexivity.
  - rewrite track_usage_tracker. split; reflexivity.
  - rewrite check_budget_tracker. split; reflexivity.
  - split; reflexivity.
  - rewrite check_circuit_breaker_eq. cbn.
    destruct (circuit_breaker_active (tracker w)); [|split; reflexivity].
    destruct (circuit_breaker_reset_time (tracker w)) as [t|]; [|split; reflexivity].
    destruct (t <=? now); split; reflexivity.
Qed.

(** The breaker fields after a step: only the two breaker operations write
    them. *)
Lemma step_breaker (o : op) (w : World) :
  (circuit_breaker_active (tracker (step o w)),
   circuit_breaker_reset_time (tracker (step o w))) =
  match o with
  | ActivateCircuitBreaker now =>
      (true, Some (now + timedelta_minutes (circuit_breaker_reset_minutes (config (tracker w)))))
  | CheckCircuitBreaker now =>
      match circuit_breaker_active (tracker w), circuit_breaker_reset_time (tracker w) with
      | true, Some reset_time =>
          if reset_time <=? now then (false, None) else (true, Some reset_time)
      | a, r => (a, r)
      end
  | _ => (circuit_breaker_active (tracker w), circuit_breaker_reset_time (tracker w))
  end.
Proof.
  destruct o; cbn [step].
  - rewrite start_session_tracker. reflexivity.
  - destruct (session_start_times (tracker w) !! session_id) eqn:E.
    + rewrite end_session_tracker by eauto. reflexivity.
    + rewrite end_session_unknown by assumption. reflexivity.
  - rewrite track_usage_tracker. reflexivity.
  - rewrite check_budget_tracker. reflexivity.
  - reflexivity.
  - rewrite check_circuit_breaker_eq. cbn.
    destruct (circuit_breaker_active (tracker w)) eqn:Ea; [|rewrite Ea; reflexivity].
    destruct (circuit_breaker_reset_time (tracker w)) as [t|] eqn:Er;
      [|rewrite Ea, Er; reflexivity].
    destruct (t <=? now); [reflexivity|]. rewrite Ea, Er. reflexivity.
Qed.

Lemma run_snoc (ops : list op) (o : op) (w : World) :
  run (ops ++ [o]) w = step o (run ops w).
Proof. unfold run. rewrite fold_left_app. reflexivity. Qed.

Lemma run_cons (o : op) (ops : list op) (w : World) :
  run (o :: ops) w = run ops (step o w).
Proof. reflexivity. Qed.

(** ** The admission check *)

(** C1. For every world, session id, cost and clock reading, [check_budget]
    returns a status (it does not raise) whose verdict is the conjunction of
    three tests: the cost is strictly below [max_session_cost_usd], the time
    since the recorded start is strictly below the duration cap (a session
    with no recorded start passes), and the breaker is not active.  A cost
    equal to the cap fails, and so does an elapsed time equal to the cap.
    The remaining budget is [max(0, cap - cost)], the remaining duration is
    [max(0, cap - elapsed)], and for a session with no recorded start it is
    the whole cap. *)
Theorem check_budget_verdict (w : World) (id : string) (current_cost : Q) (now : datetime) :
  let s := tracker w in
  let cfg := config s in
  let cap := inject_Z (max_session_duration_minutes cfg * 60) in
  exists st : BudgetStatus,
    snd (check_budget id current_cost now w) = Returned st /\
    (0 <= remaining_budget_usd st)%Q /\
    (0 <= remaining_duration_seconds st)%Q /\
    budget_ok st =
      Qltb current_cost (max_session_cost_usd cfg)
      && fst (duration_check s id now)
      && negb (circuit_breaker_active s) /\
    (budget_ok st = true <->
       (current_cost < max_session_cost_usd cfg)%Q /\
       (forall started, session_start_times s !! id = Some started ->
          (total_seconds (now - started) < cap)%Q) /\
       circuit_breaker_active s = false) /\
    ((current_cost == max_session_cost_usd cfg)%Q -> budget_ok st = false) /\
    (forall started, session_start_times s !! id = Some started ->
       (total_seconds (now - started) == cap)%Q -> budget_ok st = false) /\
    (remaining_budget_usd st == Qmax 0 (max_session_cost_usd cfg - current_cost))%Q /\
    (forall started, session_start_times s !! id = Some started ->
       (remaining_duration_seconds st == Qmax 0 (cap - total_seconds (now - started)))%Q) /\
    (session_start_times s !! id = None ->
       (remaining_duration_seconds st == Qmax 0 cap)%Q /\
       (0 <= max_session_duration_minutes cfg ->
          (remaining_duration_seconds st == cap)%Q)).
Proof.
  intros s cfg cap. eexists. rewrite check_budget_eq. cbn [snd].
  split; [reflexivity|].
  split; [apply max0_nonneg|]. split; [apply max0_nonneg|]. subst s cfg cap.
  unfold budget_status, duration_check. cbn.
  set (cfg := config (tracker w)).
  set (cap := inject_Z (max_session_duration_minutes cfg * 60)).
  destruct (session_start_times (tracker w) !! id) as [t|] eqn:Est; cbn.
  - split; [reflexivity|]. split; [|split; [|split; [|split; [|split]]]].
    + rewrite !andb_true_iff, !Qltb_lt, negb_true_iff. split.
      * intros [[Hc Hd] Ha]. repeat split; try assumption.
        intros t' Ht'. injection Ht' as <-. exact Hd.
      * intros (Hc & Hd & Ha). repeat split; auto.
    + intros Heq. destruct (Qltb current_cost (max_session_cost_usd cfg)) eqn:E;
        [|reflexivity]. apply Qltb_lt in E. lra.
    + intros t' Ht' Heq. injection Ht' as <-.
      destruct (Qltb (total_seconds (now - t)) cap) eqn:E.
      * apply Qltb_lt in E. lra.
      * rewrite andb_false_r. reflexivity.
    + apply max0_Qmax.
    + intros t' Ht'. injection Ht' as <-. apply max0_Qmax.
    + discriminate.
  - split; [reflexivity|]. split; [|split; [|split; [|split; [|split]]]].
    + rewrite !andb_true_iff, !Qltb_lt, negb_true_iff. split.
      * intros [[Hc _] Ha]. repeat split; try assumption. discriminate.
      * intros (Hc & _ & Ha). repeat split; auto.
    + intros Heq. destruct (Qltb current_cost (max_session_cost_usd cfg)) eqn:E;
        [|reflexivity]. apply Qltb_lt in E. lra.
    + discriminate.
    + apply max0_Qmax.
    + discriminate.
    + intros _. split; [apply max0_Qmax|].
      intros Hpos. apply max0_pos. apply inject_Z_nonneg. lia.
Qed.

(** ** The cost calculator: formula and fallback *)

(** C2. For every model and all token counts (the non-negative ones
    included), [calculate_cost] is [input / 1_000_000] times the input rate
    plus [output / 1_000_000] times the output rate of the model's pricing
    entry, the fallback entry when the model has none; with the default
    rates, 100 000 input and 200 000 output tokens of "gpt-5" cost 7, in
    exact arithmetic and on IEEE doubles alike. *)
Theorem calculate_cost_formula (s : SessionCostTracker) (model : string) (i o : Z) :
  (calculate_cost s model i o ==
     inject_Z i / 1000000 * fst (pricing_entry (config s) model)
     + inject_Z o / 1000000 * snd (pricing_entry (config s) model))%Q /\
  pricing_entry default_config "gpt-5" = (10%Q, 30%Q) /\
  (calculate_cost (init_tracker false default_config) "gpt-5" 100000 200000 == 7)%Q /\
  Binary64.calculate_cost "gpt-5" 100000 200000 = 7%float.
Proof.
  split; [|split; [|split]].
  - rewrite calculate_cost_priced. unfold priced. reflexivity.
  - reflexivity.
  - vm_compute. reflexivity.
  - vm_compute. reflexivity.
Qed.

Lemma assoc_not_in (model : string) (table : list (string * (Q * Q))) :
  ~ In model (map fst table) -> assoc model table = None.
Proof.
  induction table as [|[name entry] rest IH]; intros Hnot; [reflexivity|].
  simpl in *. destruct (String.eqb_spec model name) as [->|Hne].
  - exfalso. apply Hnot. left. reflexivity.
  - apply IH. intros Hin. apply Hnot. right. exact Hin.
Qed.

(** C8. For every model that has no exact match in the pricing table, and
    all token counts, [calculate_cost] (a total function: it has no raising
    path) is the cost computed from the one fallback entry, the gpt-5-mini
    rates. *)
Theorem calculate_cost_unknown_model (s : SessionCostTracker) (model : string) (i o : Z) :
  ~ In model (map fst (pricing_table (config s))) ->
  calculate_cost s model i o = priced (fallback_entry (config s)) i o /\
  fallback_entry (config s) =
    (gpt5_mini_input_cost_per_1m (config s), gpt5_mini_output_cost_per_1m (config s)).
Proof.
  intros Hnot. split; [|reflexivity].
  rewrite calculate_cost_priced. unfold pricing_entry.
  rewrite (assoc_not_in _ _ Hnot). reflexivity.
Qed.

Lemma calculate_cost_unknown_model_witness :
  ~ In "unknown-model"%string (map fst (pricing_table default_config)) /\
  calculate_cost (init_tracker false default_config) "unknown-model" 100000 100000
    = priced (3%Q, 15%Q) 100000 100000.
Proof.
  assert (H : ~ In "unknown-model"%string (map fst (pricing_table default_config))).
  { simpl. intros [H|[H|[H|[]]]]; discriminate H. }
  split; [exact H|].
  exact (proj1 (calculate_cost_unknown_model (init_tracker false default_config)
                  "unknown-model" 100000 100000 H)).
Defined.

(** ** Ending a session that is not there *)

(** C10. For every session id with no recorded start time, [end_session]
    returns without raising and leaves the whole world as it was: the three
    ledger maps, the active-session gauge, the duration histogram, and the
    external store together with the list of commands sent to it. *)
Theorem end_session_not_started (w : World) (id : string) (now : datetime) (d : bool) :
  session_start_times (tracker w) !! id = None ->
  let after := end_session id now d w in
  snd after = Returned tt /\
  fst after = w /\
  session_costs (tracker (fst after)) = session_costs (tracker w) /\
  session_tokens (tracker (fst after)) = session_tokens (tracker w) /\
  session_start_times (tracker (fst after)) = session_start_times (tracker w) /\
  active_sessions (metrics (fst after)) = active_sessions (metrics w) /\
  session_duration (metrics (fst after)) = session_duration (metrics w) /\
  redis_sent (redis (fst after)) = redis_sent (redis w).
Proof.
  intros H after. subst after. rewrite (end_session_unknown id now d w H).
  cbn [fst snd]. repeat split; reflexivity.
Qed.

Lemma end_session_not_started_witness :
  let w := step (EndSession "s" 20 true) (step (StartSession "s" 10 true true)
             (init true default_config)) in
  session_start_times (tracker w) !! "s" = None /\
  snd (end_session "s" 30 true w) = Returned tt /\
  fst (end_session "s" 30 true w) = w.
Proof.
  intros w.
  assert (H : session_start_times (tracker w) !! "s" = None) by (vm_compute; reflexivity).
  split; [exact H|].
  destruct (end_session_not_started w "s" 30 true H) as (Hret & Hw & _).
  split; [exact Hret|exact Hw].
Defined.

(** ** The circuit breaker *)

Lemma step_breaker_fields (o : op) (w : World) :
  circuit_breaker_active (tracker (step o w)) = fst (
    match o with
    | ActivateCircuitBreaker now =>
        (true, Some (now + timedelta_minutes (circuit_breaker_reset_minutes (config (tracker w)))))
    | CheckCircuitBreaker now =>
        match circuit_breaker_active (tracker w), circuit_breaker_reset_time (tracker w) with
        | true, Some reset_time =>
            if reset_time <=? now then (false, None) else (true, Some reset_time)
        | a, r => (a, r)
        end
    | _ => (circuit_breaker_active (tracker w), circuit_breaker_reset_time (tracker w))
    end) /\
  circuit_breaker_reset_time (tracker (step o w)) = snd (
    match o with
    | ActivateCircuitBreaker now =>
        (true, Some (now + timedelta_minutes (circuit_breaker_reset_minutes (config (tracker w)))))
    | CheckCircuitBreaker now =>
        match circuit_breaker_active (tracker w), circuit_breaker_reset_time (tracker w) with
        | true, Some reset_time =>
            if reset_time <=? now then (false, None) else (true, Some reset_time)
        | a, r => (a, r)
        end
    | _ => (circuit_breaker_active (tracker w), circuit_breaker_reset_time (tracker w))
    end).
Proof. rewrite <- step_breaker. split; reflexivity. Qed.

Lemma step_breaker_inv (o : op) (w : World) :
  breaker_inv (tracker w) -> breaker_inv (tracker (step o w)).
Proof.
  unfold breaker_inv. intros Hinv.
  destruct (step_breaker_fields o w) as [Ha Hr]. rewrite Ha, Hr. clear Ha Hr.
  destruct o; cbn [fst snd]; try exact Hinv.
  - discriminate.
  - destruct (circuit_breaker_active (tracker w)) eqn:Ea.
    + destruct (circuit_breaker_reset_time (tracker w)) as [t|] eqn:Er; cbn.
      * destruct (t <=? now); cbn; [reflexivity|discriminate].
      * reflexivity.
    + exact Hinv.
Qed.

Lemma run_invariant (P : World -> Prop) (ops : list op) (w : World) :
  (forall o w, P w -> P (step o w)) -> P w -> P (run ops w).
Proof.
  intros Hstep. revert w. induction ops as [|o ops IH]; intros w Hw; [exact Hw|].
  rewrite run_cons. apply IH. apply Hstep. exact Hw.
Qed.

Lemma run_config (ops : list op) (w : World) :
  config (tracker (run ops w)) = config (tracker w).
Proof.
  apply (run_invariant (fun w' => config (tracker w') = config (tracker w))).
  - intros o w' H. rewrite (proj1 (step_config o w')). exact H.
  - reflexivity.
Qed.

(** C4. In the initial state and after every run of operations the breaker
    satisfies [active = false -> reset_time = None].  Activation, from any
    such state, sets [active] and sets the reset time to the time of the
    call plus the cooldown, so that a second activation replaces the window
    of the first.  [check_circuit_breaker] clears both fields exactly when
    the breaker is active and its reset time has come, and otherwise leaves
    the tracker as it is; no other operation turns an active breaker off. *)
Theorem circuit_breaker_machine (client : bool) (cfg : CostProtectionConfig)
    (ops : list op) (o : op) (now now' : datetime) :
  let w := run ops (init client cfg) in
  let s := tracker w in
  let cooldown := timedelta_minutes (circuit_breaker_reset_minutes cfg) in
  breaker_inv (tracker (init client cfg)) /\
  breaker_inv s /\
  (let s1 := tracker (fst (activate_circuit_breaker now w)) in
   let s2 := tracker (fst (activate_circuit_breaker now'
                             (fst (activate_circuit_breaker now w)))) in
   circuit_breaker_active s1 = true /\
   circuit_breaker_reset_time s1 = Some (now + cooldown) /\
   circuit_breaker_active s2 = true /\
   circuit_breaker_reset_time s2 = Some (now' + cooldown)) /\
  (let s' := tracker (fst (check_circuit_breaker now w)) in
   let due := circuit_breaker_active s = true /\
              exists t, circuit_breaker_reset_time s = Some t /\ t <= now in
   (due -> circuit_breaker_active s' = false /\ circuit_breaker_reset_time s' = None) /\
   (~ due -> s' = s) /\
   (circuit_breaker_active s = true -> circuit_breaker_active s' = false -> due)) /\
  (circuit_breaker_active s = true ->
   circuit_breaker_active (tracker (step o w)) = false ->
   exists t, o = CheckCircuitBreaker t).
Proof.
  intros w s cooldown.
  assert (Hcfg : config s = cfg) by (subst s w; rewrite run_config; reflexivity).
  split; [intros _; reflexivity|].
  split.
  { subst s w. apply (run_invariant (fun w => breaker_inv (tracker w))).
    - intros o' w'. apply step_breaker_inv.
    - intros _. reflexivity. }
  split.
  { rewrite !activate_eq. cbn. fold s. rewrite Hcfg. auto. }
  split.
  { rewrite check_circuit_breaker_eq. cbn [fst]. fold s.
    destruct (circuit_breaker_active s) eqn:Ea.
    - destruct (circuit_breaker_reset_time s) as [t|] eqn:Er.
      + destruct (Z.leb_spec t now) as [Hle|Hgt].
        * split; [intros _; split; reflexivity|].
          split; [intros Hn; exfalso; apply Hn; eauto|]. eauto.
        * split; [intros (_ & t' & Ht' & Hle); injection Ht' as <-; lia|].
          split; [reflexivity|]. intros _ Hf. fold s in Hf. congruence.
      + split; [intros (_ & t' & Ht' & _); discriminate|].
        split; [reflexivity|]. intros _ Hf. fold s in Hf. congruence.
    - split; [intros (Hf & _); discriminate|].
      split; [reflexivity|]. discriminate. }
  intros Ha Hoff. destruct (step_breaker_fields o w) as [Hb _].
  rewrite Hb in Hoff. fold s in Hoff.
  destruct o; cbn [fst] in Hoff; try congruence. eauto.
Qed.

(** ** Isolation of sessions *)

Lemma calculate_cost_config (s1 s2 : SessionCostTracker) (m : string) (i o : Z) :
  config s1 = config s2 -> calculate_cost s1 m i o = calculate_cost s2 m i o.
Proof. intros H. unfold calculate_cost. rewrite H. reflexivity. Qed.

Lemma tokens_after_other (id1 id2 : string) (i o : Z) (m : gmap string TokenCount) :
  id1 <> id2 -> add_output id1 o (add_input id1 i m) !! id2 = m !! id2.
Proof.
  intros Hne. unfold add_output, add_input.
  rewrite !lookup_insert_ne by exact Hne. reflexivity.
Qed.

Lemma tokens_after_same (id : string) (i o : Z) (m : gmap string TokenCount) :
  add_output id o (add_input id i m) !! id =
  Some {| input := input (tokens_of id m) + i; output := output (tokens_of id m) + o |}.
Proof.
  unfold add_output, add_input, tokens_of.
  rewrite lookup_insert_eq. rewrite lookup_insert_eq. reflexivity.
Qed.

Lemma step_usage_of_other (id2 : string) (o : op) (w : World) :
  usage_of_other id2 o -> same_for id2 (tracker (step o w)) (tracker w).
Proof.
  destruct o; cbn [usage_of_other]; try contradiction. intros Hne.
  cbn [step]. rewrite track_usage_tracker. unfold same_for, ledger_after. cbn.
  rewrite lookup_insert_ne by exact Hne.
  rewrite tokens_after_other by exact Hne. repeat split; reflexivity.
Qed.

Lemma same_for_trans (id : string) (s1 s2 s3 : SessionCostTracker) :
  same_for id s1 s2 -> same_for id s2 s3 -> same_for id s1 s3.
Proof.
  unfold same_for. intros (A1 & A2 & A3 & A4 & A5) (B1 & B2 & B3 & B4 & B5).
  repeat split; congruence.
Qed.

Lemma run_usage_of_other (id2 : string) (ops : list op) (w : World) :
  Forall (usage_of_other id2) ops -> same_for id2 (tracker (run ops w)) (tracker w).
Proof.
  intros Hall. revert w. induction Hall as [|o ops Ho _ IH]; intros w.
  - unfold same_for. repeat split; reflexivity.
  - rewrite run_cons. eapply same_for_trans; [apply IH|].
    apply step_usage_of_other. exact Ho.
Qed.

Lemma track_usage_same_for (id m : string) (i o : Z) (now : datetime) (h h' : bool)
    (w w' : World) :
  same_for id (tracker w') (tracker w) ->
  snd (track_usage id m i o now h' w') = snd (track_usage id m i o now h w).
Proof.
  intros (Hc & Hcost & Htok & Hst & Ha).
  rewrite !track_usage_outcome. unfold cost_of.
  rewrite (calculate_cost_config _ _ m i o Hc), Hc, Hcost, Hst, Ha. reflexivity.
Qed.

(** C9. For every session [id2] and every history of [track_usage] calls
    for sessions other than [id2], the cost, token and start-time entries of
    [id2] are what they were before the history, and a [track_usage] call
    for [id2] returns (or raises) exactly what it would have without that
    history: the same call cost, session cost and verdict.  ([track_usage]
    does not write the breaker.) *)
Theorem track_usage_isolation (w : World) (id2 : string) (ops : list op)
    (m : string) (i o : Z) (now : datetime) (h h' : bool) :
  Forall (usage_of_other id2) ops ->
  let w' := run ops w in
  session_costs (tracker w') !! id2 = session_costs (tracker w) !! id2 /\
  session_tokens (tracker w') !! id2 = session_tokens (tracker w) !! id2 /\
  session_start_times (tracker w') !! id2 = session_start_times (tracker w) !! id2 /\
  circuit_breaker_active (tracker w') = circuit_breaker_active (tracker w) /\
  snd (track_usage id2 m i o now h' w') = snd (track_usage id2 m i o now h w).
Proof.
  intros Hall w'. pose proof (run_usage_of_other id2 ops w Hall) as Hsame.
  fold w' in Hsame.
  split; [|split; [|split; [|split]]];
    try (apply track_usage_same_for; exact Hsame);
    destruct Hsame as (Hc & Hcost & Htok & Hst & Ha); assumption.
Qed.

Lemma track_usage_isolation_witness :
  let w := fst (start_session "b" 0 true true
                  (fst (start_session "a" 0 true true (init false default_config)))) in
  let ops := [TrackUsage "a" "gpt-5" 50000 150000 1 true;
              TrackUsage "a" "gpt-realtime" 1000 1000 2 false] in
  Forall (usage_of_other "b") ops /\
  session_costs (tracker (run ops w)) !! "b" = session_costs (tracker w) !! "b" /\
  snd (track_usage "b" "gpt-5-mini" 10000 20000 3 true (run ops w)) =
  snd (track_usage "b" "gpt-5-mini" 10000 20000 3 true w).
Proof.
  intros w ops.
  assert (H : Forall (usage_of_other "b") ops).
  { repeat constructor; cbn; discriminate. }
  split; [exact H|].
  pose proof (track_usage_isolation w "b" ops "gpt-5-mini" 10000 20000 3 true true H)
    as (Hc & _ & _ & _ & Hr).
  split; [exact Hc|exact Hr].
Defined.

(** ** Life cycle of a ledger entry *)

Lemma session_open_from_snoc (b : bool) (ops : list op) (o : op) (id : string) :
  session_open_from b (ops ++ [o]) id =
  match o with
  | StartSession id' _ _ _ => if String.eqb id' id then true else session_open_from b ops id
  | EndSession id' _ _ => if String.eqb id' id then false else session_open_from b ops id
  | _ => session_open_from b ops id
  end.
Proof. unfold session_open_from. rewrite fold_left_app. reflexivity. Qed.

Lemma start_time_iff_open (ops : list op) (w : World) (id : string) :
  session_start_times (tracker w) !! id = None ->
  is_Some (session_start_times (tracker (run ops w)) !! id) <->
  session_open ops id = true.
Proof.
  intros Hw. unfold session_open.
  induction ops as [|o ops IH] using rev_ind.
  - cbn. rewrite Hw. split; [intros [? ?]; discriminate|discriminate].
  - rewrite run_snoc, session_open_from_snoc, step_start_times.
    destruct o; try exact IH.
    + destruct (String.eqb_spec session_id id) as [->|Hne].
      * rewrite lookup_insert_eq. split; eauto.
      * rewrite lookup_insert_ne by exact Hne. exact IH.
    + destruct (String.eqb_spec session_id id) as [->|Hne].
      * rewrite lookup_delete_eq. split; [intros [? ?]; discriminate|discriminate].
      * rewrite lookup_delete_ne by exact Hne. exact IH.
Qed.

(** C5, as the code has it. For every run of operations from a fresh
    tracker and every session id, the start-time map holds the id exactly
    when the last [start_session] or [end_session] for it was a
    [start_session].  [track_usage] never writes the start-time map, but it
    writes the cost and token maps on every call: for an id that has no
    entry in any of the three maps it creates a cost entry holding the cost
    of the call and a token entry holding the counts of the call, still
    without a start time, and it returns the priced event unless a counter
    refuses a negative amount. *)
Theorem session_entry_lifecycle (client : bool) (cfg : CostProtectionConfig)
    (ops : list op) (id model : string) (i o : Z) (now : datetime) (h : bool) :
  let w := run ops (init client cfg) in
  let s := tracker w in
  let after := track_usage id model i o now h w in
  let s' := tracker (fst after) in
  let cost := calculate_cost s model i o in
  (is_Some (session_start_times s !! id) <-> session_open ops id = true) /\
  session_start_times s' = session_start_times s /\
  session_costs s' !! id = Some (cost_of s id + cost)%Q /\
  session_tokens s' !! id =
    Some {| input := input (tokens_of id (session_tokens s)) + i;
            output := output (tokens_of id (session_tokens s)) + o |} /\
  (~ has_entry s id ->
     session_costs s' !! id = Some (0 + cost)%Q /\
     session_tokens s' !! id = Some {| input := 0 + i; output := 0 + o |} /\
     session_start_times s' !! id = None /\
     snd after =
       if counters_refuse cost i o then Raised ValueError
       else Returned {|
              session_id_of := id; model_of := model;
              input_tokens_of := i; output_tokens_of := o;
              call_cost := cost; session_cost := (0 + cost)%Q;
              status := budget_status (config s) None (circuit_breaker_active s)
                          (0 + cost)%Q now |}).
Proof.
  intros w s after s' cost.
  assert (Hst : session_start_times s' = session_start_times s).
  { subst s' after. rewrite track_usage_tracker. reflexivity. }
  assert (Hc : session_costs s' !! id = Some (cost_of s id + cost)%Q).
  { subst s' after. rewrite track_usage_tracker. unfold ledger_after. cbn.
    rewrite lookup_insert_eq. reflexivity. }
  assert (Ht : session_tokens s' !! id =
    Some {| input := input (tokens_of id (session_tokens s)) + i;
            output := output (tokens_of id (session_tokens s)) + o |}).
  { subst s' after. rewrite track_usage_tracker. unfold ledger_after. cbn.
    apply tokens_after_same. }
  split; [apply start_time_iff_open; reflexivity|].
  split; [exact Hst|]. split; [exact Hc|]. split; [exact Ht|].
  intros Hno.
  assert (H1 : session_costs s !! id = None).
  { destruct (session_costs s !! id) eqn:E; [|reflexivity].
    exfalso. apply Hno. left. eauto. }
  assert (H2 : session_tokens s !! id = None).
  { destruct (session_tokens s !! id) eqn:E; [|reflexivity].
    exfalso. apply Hno. right. left. eauto. }
  assert (H3 : session_start_times s !! id = None).
  { destruct (session_start_times s !! id) eqn:E; [|reflexivity].
    exfalso. apply Hno. right. right. eauto. }
  split; [|split; [|split]].
  - rewrite Hc. unfold cost_of. rewrite H1. reflexivity.
  - rewrite Ht. unfold tokens_of. rewrite H2. reflexivity.
  - rewrite Hst. exact H3.
  - subst after. rewrite track_usage_outcome. fold s. fold cost.
    unfold cost_of. rewrite H1, H3. reflexivity.
Qed.

Lemma session_entry_lifecycle_witness :
  let ops := [StartSession "s" 0 true true; EndSession "s" 5 true] in
  let w := run ops (init false default_config) in
  let after := track_usage "s" "gpt-5" 1000 2000 9 true w in
  ~ has_entry (tracker w) "s" /\
  session_open ops "s" = false /\
  session_start_times (tracker (fst after)) !! "s" = None /\
  session_costs (tracker (fst after)) !! "s"
    = Some (0 + calculate_cost (tracker w) "gpt-5" 1000 2000)%Q.
Proof.
  intros ops w after.
  assert (Hno : ~ has_entry (tracker w) "s").
  { intros [[x H]|[[x H]|[x H]]]; vm_compute in H; discriminate H. }
  pose proof (session_entry_lifecycle false default_config ops "s" "gpt-5"
                1000 2000 9 true) as (_ & _ & _ & _ & Hnew).
  destruct (Hnew Hno) as (Hc & _ & Hs & _).
  split; [exact Hno|]. split; [reflexivity|]. split; [exact Hs|exact Hc].
Defined.

(** C5, counterexample. The claim as the specification words it fails: a
    [track_usage] call for
    a session that was never started leaves a cost entry and a token entry
    for it in the ledger. *)
Lemma ledger_entry_without_start :
  let ops := [TrackUsage "ghost" "gpt-5" 1000 2000 0 true] in
  let w0 := init false default_config in
  let w := run ops w0 in
  ~ has_entry (tracker w0) "ghost" /\
  session_open ops "ghost" = false /\
  is_Some (session_costs (tracker w) !! "ghost") /\
  session_tokens (tracker w) !! "ghost" = Some {| input := 1000; output := 2000 |} /\
  ~ (has_entry (tracker w) "ghost" <-> session_open ops "ghost" = true).
Proof.
  intros ops w0 w.
  assert (Hc : is_Some (session_costs (tracker w) !! "ghost")).
  { vm_compute. eauto. }
  split; [intros [[x H]|[[x H]|[x H]]]; vm_compute in H; discriminate H|].
  split; [reflexivity|]. split; [exact Hc|]. split; [vm_compute; reflexivity|].
  intros [Hto _]. assert (Hopen := Hto (or_introl Hc)). discriminate Hopen.
Qed.

(** ** Negative token counts *)

(** C7. [calculate_cost] does not clamp a negative count: one million
    negative input tokens of "gpt-5" cost -10 with the default rates, where
    the same call with the counts clamped at zero costs 0.  The result is
    negative, and it is the same on IEEE doubles. *)
Theorem calculate_cost_negative_tokens :
  let s := init_tracker false default_config in
  (calculate_cost s "gpt-5" (-1000000) 0 == -10)%Q /\
  (calculate_cost s "gpt-5" (Z.max (-1000000) 0) (Z.max 0 0) == 0)%Q /\
  ~ (calculate_cost s "gpt-5" (-1000000) 0 ==
     calculate_cost s "gpt-5" (Z.max (-1000000) 0) (Z.max 0 0))%Q /\
  (calculate_cost s "gpt-5" (-1000000) 0 < 0)%Q /\
  Binary64.calculate_cost "gpt-5" (-1000000) 0 = (-10)%float.
Proof.
  intros s. split; [|split; [|split; [|split]]].
  - vm_compute. reflexivity.
  - vm_compute. reflexivity.
  - vm_compute. discriminate.
  - vm_compute. reflexivity.
  - vm_compute. reflexivity.
Qed.

(** C6. [track_usage] raises for a negative token count: the ledger is
    written first, then a Prometheus counter is asked to add a negative
    amount and refuses with [ValueError], which nothing catches.  This holds
    when the cost of the call is negative (the cost counter refuses) and
    when it is positive (a token counter refuses). *)
Theorem track_usage_raises_on_negative_tokens :
  let w0 := fst (start_session "s" 0 true true (init false default_config)) in
  let c1 := track_usage "s" "gpt-5" (-1) 0 1 true w0 in
  let c2 := track_usage "s" "gpt-5" 1000 (-1) 1 true w0 in
  snd c1 = Raised ValueError /\
  snd c2 = Raised ValueError /\
  (0 < calculate_cost (tracker w0) "gpt-5" 1000 (-1))%Q /\
  session_tokens (tracker (fst c1)) !! "s" = Some {| input := -1; output := 0 |}.
Proof.
  intros w0 c1 c2. split; [|split; [|split]]; vm_compute; reflexivity.
Qed.

(** C3. The recorded cost of a session can go down, and a refused session
    can be admitted again.  With the default configuration: a first call
    takes the session to 10 (the cap is 5) and returns a verdict of false;
    a second call with a million negative input tokens takes the recorded
    cost back to 0 (and then raises, as in C6); a third call, with no
    tokens, returns a verdict of true. *)
Theorem track_usage_cost_can_decrease :
  let w0 := fst (start_session "s" 0 true true (init false default_config)) in
  let c1 := track_usage "s" "gpt-5" 1000000 0 1 true w0 in
  let c2 := track_usage "s" "gpt-5" (-1000000) 0 2 true (fst c1) in
  let c3 := track_usage "s" "gpt-5" 0 0 3 true (fst c2) in
  (exists r1, snd c1 = Returned r1 /\ budget_ok (status r1) = false /\
     (session_cost r1 == 10)%Q /\
     Qltb (session_cost r1) (max_session_cost_usd default_config) = false) /\
  snd c2 = Raised ValueError /\
  (cost_of (tracker (fst c1)) "s" == 10)%Q /\
  (cost_of (tracker (fst c2)) "s" == 0)%Q /\
  (exists r3, snd c3 = Returned r3 /\ budget_ok (status r3) = true /\
     (session_cost r3 == 0)%Q).
Proof.
  intros w0 c1 c2 c3. split; [|split; [|split; [|split]]].
  - eexists. split; [vm_compute; reflexivity|].
    split; [|split]; vm_compute; reflexivity.
  - vm_compute. reflexivity.
  - vm_compute. reflexivity.
  - vm_compute. reflexivity.
  - eexists. split; [vm_compute; reflexivity|].
    split; [|split]; vm_compute; reflexivity.
Qed.

(** ** Non-negative token counts *)

Lemma counters_accept (cost : Q) (i o : Z) :
  (0 <= cost)%Q -> 0 <= i -> 0 <= o -> counters_refuse cost i o = false.
Proof.
  intros Hc Hi Ho. unfold counters_refuse.
  rewrite !orb_false_iff, !Qltb_ge. repeat split.
  - exact Hc.
  - apply inject_Z_nonneg. exact Hi.
  - apply inject_Z_nonneg. exact Ho.
Qed.

Lemma cost_of_ledger_after (id id' m : string) (i o : Z) (s : SessionCostTracker) :
  cost_of (ledger_after id' m i o s) id =
  if String.eqb id' id then (cost_of s id + calculate_cost s m i o)%Q else cost_of s id.
Proof.
  unfold cost_of, ledger_after. cbn.
  destruct (String.eqb_spec id' id) as [->|Hne].
  - rewrite lookup_insert_eq. reflexivity.
  - rewrite lookup_insert_ne by exact Hne. reflexivity.
Qed.

Lemma step_cost_monotone (o : op) (w : World) (id : string) :
  rates_nonneg (config (tracker w)) -> usage_nonneg o ->
  (cost_of (tracker w) id <= cost_of (tracker (step o w)) id)%Q.
Proof.
  intros Hr Ho. destruct o; cbn [usage_nonneg] in Ho; try contradiction.
  destruct Ho as [Hi Hout]. cbn [step].
  rewrite track_usage_tracker, cost_of_ledger_after.
  pose proof (calculate_cost_nonneg (tracker w) model input_tokens output_tokens Hr Hi Hout).
  destruct (String.eqb session_id id); lra.
Qed.

Lemma run_cost_monotone (ops : list op) (w : World) (id : string) :
  rates_nonneg (config (tracker w)) -> Forall usage_nonneg ops ->
  (cost_of (tracker w) id <= cost_of (tracker (run ops w)) id)%Q.
Proof.
  intros Hr Hall. revert w Hr. induction Hall as [|o ops Ho _ IH]; intros w Hr.
  - cbn. lra.
  - rewrite run_cons.
    pose proof (step_cost_monotone o w id Hr Ho) as H1.
    assert (Hr' : rates_nonneg (config (tracker (step o w)))).
    { rewrite (proj1 (step_config o w)). exact Hr. }
    pose proof (IH (step o w) Hr') as H2. lra.
Qed.

(** X2. With non-negative rates and token counts, [track_usage] returns, for
    an unknown session as for a known one and whatever the external store
    does: the verdict it returns is the one [check_budget] gives for the new
    session cost, and the ledger holds that cost. *)
Theorem track_usage_returns (w : World) (id m : string) (i o : Z) (now : datetime) :
  rates_nonneg (config (tracker w)) -> 0 <= i -> 0 <= o ->
  exists r : UsageResult,
    (forall h, snd (track_usage id m i o now h w) = Returned r) /\
    call_cost r = calculate_cost (tracker w) m i o /\
    session_cost r = (cost_of (tracker w) id + call_cost r)%Q /\
    snd (check_budget id (session_cost r) now w) = Returned (status r) /\
    (forall h, cost_of (tracker (fst (track_usage id m i o now h w))) id = session_cost r).
Proof.
  intros Hr Hi Ho. eexists. split; [|split; [|split; [|split]]].
  - intros h. rewrite track_usage_outcome.
    rewrite counters_accept; [reflexivity| |exact Hi|exact Ho].
    apply calculate_cost_nonneg; assumption.
  - reflexivity.
  - reflexivity.
  - rewrite check_budget_eq. reflexivity.
  - intros h. rewrite track_usage_tracker, cost_of_ledger_after.
    rewrite String.eqb_refl. reflexivity.
Qed.

Lemma track_usage_returns_witness :
  let w := init true default_config in
  rates_nonneg default_config /\
  exists r : UsageResult,
    snd (track_usage "nonexistent-session" "gpt-5" 1000 2000 0 false w) = Returned r /\
    (0 < call_cost r)%Q.
Proof.
  intros w.
  assert (Hr : rates_nonneg default_config).
  { unfold rates_nonneg. cbn. repeat split; discriminate. }
  split; [exact Hr|].
  destruct (track_usage_returns w "nonexistent-session" "gpt-5" 1000 2000 0 Hr
              ltac:(lia) ltac:(lia)) as (r & Hret & Hcost & _).
  exists r. split; [apply Hret|]. rewrite Hcost. vm_compute. reflexivity.
Defined.

(** X1. With non-negative rates and a history of [track_usage] calls whose
    token counts are non-negative, the recorded cost of a session never goes
    down, and once a call has returned a session cost at or above the cap,
    every later call for that session returns a verdict of false. *)
Theorem track_usage_monotone (w : World) (id m1 m2 : string) (i1 o1 i2 o2 : Z)
    (now1 now2 : datetime) (h1 h2 : bool) (ops : list op) :
  let cfg := config (tracker w) in
  let c1 := track_usage id m1 i1 o1 now1 h1 w in
  let c2 := track_usage id m2 i2 o2 now2 h2 (run ops (fst c1)) in
  rates_nonneg cfg -> 0 <= i1 -> 0 <= o1 -> 0 <= i2 -> 0 <= o2 ->
  Forall usage_nonneg ops ->
  exists r1 r2,
    snd c1 = Returned r1 /\ snd c2 = Returned r2 /\
    (cost_of (tracker w) id <= session_cost r1)%Q /\
    (session_cost r1 <= cost_of (tracker (run ops (fst c1))) id)%Q /\
    (session_cost r1 <= session_cost r2)%Q /\
    (Qltb (session_cost r1) (max_session_cost_usd cfg) = false ->
     budget_ok (status r1) = false /\ budget_ok (status r2) = false).
Proof.
  intros cfg c1 c2 Hr Hi1 Ho1 Hi2 Ho2 Hall. subst cfg.
  pose proof (calculate_cost_nonneg (tracker w) m1 i1 o1 Hr Hi1 Ho1) as Hc1.
  assert (Hcfg1 : config (tracker (fst c1)) = config (tracker w)).
  { subst c1. rewrite track_usage_tracker. reflexivity. }
  set (w1 := run ops (fst c1)) in *.
  assert (Hcfg2 : config (tracker w1) = config (tracker w)).
  { subst w1. rewrite run_config. exact Hcfg1. }
  assert (Hr2 : rates_nonneg (config (tracker w1))).
  { rewrite Hcfg2. exact Hr. }
  pose proof (calculate_cost_nonneg (tracker w1) m2 i2 o2 Hr2 Hi2 Ho2) as Hc2.
  assert (Hmid : (cost_of (tracker (fst c1)) id <= cost_of (tracker w1) id)%Q).
  { subst w1. apply run_cost_monotone; [rewrite Hcfg1; exact Hr|exact Hall]. }
  assert (Hl1 : cost_of (tracker (fst c1)) id
                = (cost_of (tracker w) id + calculate_cost (tracker w) m1 i1 o1)%Q).
  { subst c1. rewrite track_usage_tracker, cost_of_ledger_after, String.eqb_refl.
    reflexivity. }
  rewrite Hl1 in Hmid.
  do 2 eexists. subst c1 c2.
  rewrite !track_usage_outcome.
  rewrite (counters_accept _ _ _ Hc1 Hi1 Ho1), (counters_accept _ _ _ Hc2 Hi2 Ho2).
  split; [reflexivity|]. split; [reflexivity|].
  cbn [session_cost status budget_ok budget_status].
  split; [lra|]. split; [exact Hmid|]. split; [lra|].
  intros Hcap. rewrite Hcap. split; [reflexivity|].
  rewrite Hcfg2.
  assert (Hcap2 : Qltb (cost_of (tracker w1) id + calculate_cost (tracker w1) m2 i2 o2)
                    (max_session_cost_usd (config (tracker w))) = false).
  { apply Qltb_ge. apply Qltb_ge in Hcap. lra. }
  rewrite Hcap2. reflexivity.
Qed.

Lemma track_usage_monotone_witness :
  let w := fst (start_session "s" 0 true true (init false default_config)) in
  let c1 := track_usage "s" "gpt-5" 500000 100000 1 true w in
  let c2 := track_usage "s" "gpt-5-mini" 0 0 3 true
              (run [TrackUsage "t" "gpt-5" 10 10 2 true] (fst c1)) in
  exists r1 r2,
    snd c1 = Returned r1 /\ snd c2 = Returned r2 /\
    (session_cost r1 <= session_cost r2)%Q /\
    budget_ok (status r1) = false /\ budget_ok (status r2) = false.
Proof.
  intros w c1 c2.
  assert (Hr : rates_nonneg default_config).
  { unfold rates_nonneg. cbn. repeat split; discriminate. }
  assert (Hall : Forall usage_nonneg [TrackUsage "t" "gpt-5" 10 10 2 true]).
  { repeat constructor; cbn; lia. }
  destruct (track_usage_monotone w "s" "gpt-5" "gpt-5-mini" 500000 100000 0 0 1 3
              true true _ Hr ltac:(lia) ltac:(lia) ltac:(lia) ltac:(lia) Hall)
    as (r1 & r2 & H1 & H2 & _ & _ & Hle & Hcap).
  exists r1, r2. split; [exact H1|]. split; [exact H2|]. split; [exact Hle|].
  apply Hcap.
  assert (Hs : snd c1 = Returned r1) by exact H1.
  vm_compute in Hs. injection Hs as <-. vm_compute. reflexivity.
Defined.

(** ** Further properties of the specification's test list *)


(** X4. Once the breaker is activated every admission check fails and reports
    the breaker as active, whatever the session and its cost; once the reset
    time has passed and [check_circuit_breaker] has run, the verdict is
    again the budget test and the duration test alone. *)
Theorem breaker_blocks_every_session (w : World) (now0 now1 now : datetime)
    (id : string) (c : Q) :
  let cooldown := timedelta_minutes (circuit_breaker_reset_minutes (config (tracker w))) in
  let w1 := fst (activate_circuit_breaker now0 w) in
  let w2 := fst (check_circuit_breaker now1 w1) in
  now0 + cooldown <= now1 ->
  (exists st, snd (check_budget id c now w1) = Returned st /\
     budget_ok st = false /\ circuit_breaker_active_now st = true) /\
  (exists st, snd (check_budget id c now w2) = Returned st /\
     circuit_breaker_active_now st = false /\
     budget_ok st = Qltb c (max_session_cost_usd (config (tracker w)))
                    && fst (duration_check (tracker w) id now)).
Proof.
  intros cooldown w1 w2 Hdue. split.
  - eexists. rewrite check_budget_eq. cbn [snd]. split; [reflexivity|].
    subst w1. rewrite activate_eq. cbn.
    rewrite andb_false_r. split; reflexivity.
  - eexists. rewrite check_budget_eq. cbn [snd]. split; [reflexivity|].
    subst w2 w1. rewrite check_circuit_breaker_eq, activate_eq. cbn.
    fold cooldown. destruct (Z.leb_spec (now0 + cooldown) now1) as [_|Hlt]; [|lia].
    cbn. split; [reflexivity|]. rewrite andb_true_r.
    unfold duration_check.
    destruct (session_start_times (tracker w) !! id); reflexivity.
Qed.

Lemma breaker_blocks_every_session_witness :
  let w := fst (start_session "s" 0 true true (init false default_config)) in
  let w1 := fst (activate_circuit_breaker 10 w) in
  let w2 := fst (check_circuit_breaker 3600000010 w1) in
  10 + timedelta_minutes 60 <= 3600000010 /\
  (exists st, snd (check_budget "s" 0 20 w1) = Returned st /\ budget_ok st = false) /\
  (exists st, snd (check_budget "s" 0 3600000020 w2) = Returned st /\ budget_ok st = false)
  /\ (exists st, snd (check_budget "new" 0 3600000020 w2) = Returned st /\ budget_ok st = true).
Proof.
  intros w w1 w2.
  assert (H : 10 + timedelta_minutes 60 <= 3600000010) by (vm_compute; discriminate).
  split; [exact H|].
  destruct (breaker_blocks_every_session w 10 3600000010 20 "s" 0 H)
    as [(st & Hst & Hok & _) _].
  split; [exists st; split; [exact Hst|exact Hok]|].
  split; eexists; (split; [vm_compute; reflexivity|]); vm_compute; reflexivity.
Defined.

(** X5. [start_session] and [end_session] return whatever the external store
    does, and the ledger [start_session] leaves does not depend on it. *)
Theorem session_hooks_never_raise (w : World) (id : string) (now : datetime)
    (hset_ok expire_ok delete_ok : bool) :
  snd (start_session id now hset_ok expire_ok w) = Returned tt /\
  snd (end_session id now delete_ok w) = Returned tt /\
  tracker (fst (start_session id now hset_ok expire_ok w)) =
    tracker (fst (start_session id now true true w)) /\
  session_start_times (tracker (fst (start_session id now hset_ok expire_ok w))) !! id
    = Some now /\
  session_costs (tracker (fst (start_session id now hset_ok expire_ok w))) !! id
    = Some 0%Q /\
  session_start_times (tracker (fst (end_session id now delete_ok w))) !! id = None.
Proof.
  split; [apply start_session_returns|]. split; [apply end_session_returns|].
  rewrite !start_session_tracker. split; [reflexivity|]. cbn.
  rewrite !lookup_insert_eq. split; [reflexivity|]. split; [reflexivity|].
  pose proof (step_start_times (EndSession id now delete_ok) w) as H. cbn [step] in H.
  rewrite H. apply lookup_delete_eq.
Qed.

(** ** The admission check: warnings, metric and clock *)


(** X6. [check_budget] writes nothing but the [budget_exceeded] counter: the
    tracker, the store and the other metrics stay as they are, and the
    counter of the session goes up by one exactly when the verdict is false.
    The warnings it returns are one per failed test: the list is empty
    exactly when the verdict is true, and each of the three messages is in
    it exactly when its test failed. *)
Theorem check_budget_effects (w : World) (id : string) (c : Q) (now : datetime) :
  let after := check_budget id c now w in
  let b := Qltb c (max_session_cost_usd (config (tracker w))) in
  let d := fst (duration_check (tracker w) id now) in
  let a := negb (circuit_breaker_active (tracker w)) in
  exists st : BudgetStatus,
    snd after = Returned st /\
    tracker (fst after) = tracker w /\
    redis (fst after) = redis w /\
    metrics (fst after) =
      (if budget_ok st then metrics w
       else set_budget_exceeded
              (<[id := (default 0%Q (budget_exceeded (metrics w) !! id) + 1)%Q]>
                 (budget_exceeded (metrics w))) (metrics w)) /\
    length (warnings st) = failed_tests b d a /\
    (warnings st = [] <-> budget_ok st = true) /\
    (In "Session budget limit exceeded"%string (warnings st) <-> b = false) /\
    (In "Session duration limit exceeded"%string (warnings st) <-> d = false) /\
    (In "System-wide circuit breaker is active"%string (warnings st) <-> a = false).
Proof.
  intros after b d a. subst after. rewrite check_budget_eq. cbn [fst snd].
  eexists. split; [reflexivity|].
  assert (Hd : d = match session_start_times (tracker w) !! id with
                   | Some t => Qltb (total_seconds (now - t))
                                 (inject_Z (max_session_duration_minutes
                                              (config (tracker w)) * 60))
                   | None => true
                   end).
  { subst d. unfold duration_check.
    destruct (session_start_times (tracker w) !! id); reflexivity. }
  unfold budget_status. cbn [budget_ok warnings]. fold b. rewrite <- Hd. fold a.
  clear Hd. destruct b, d, a; cbn;
    (split; [reflexivity|]); (split; [reflexivity|]); (split; [reflexivity|]);
    (split; [reflexivity|]);
    repeat split; intros H; try reflexivity; try discriminate H; try tauto;
    repeat (destruct H as [H|H]; try discriminate H); try contradiction.
Qed.



(** X8. [check_budget_before_call] agrees with [track_usage]: asked at the
    same clock reading right after a [track_usage] call that returned, it
    returns the verdict of that call; it never raises and leaves the
    tracker as it is. *)
Theorem check_budget_before_call_agrees (w : World) (id m : string) (i o : Z)
    (now : datetime) (h : bool) (r : UsageResult) :
  snd (track_usage id m i o now h w) = Returned r ->
  let w' := fst (track_usage id m i o now h w) in
  snd (check_budget_before_call id now w') = Returned (budget_ok (status r)) /\
  tracker (fst (check_budget_before_call id now w')) = tracker w'.
Proof.
  intros Hr w'. unfold check_budget_before_call. unfold_M. cbn.
  rewrite check_budget_eq. cbn.
  assert (Ht : tracker w' = ledger_after id m i o (tracker w)).
  { subst w'. apply track_usage_tracker. }
  rewrite track_usage_outcome in Hr.
  destruct (counters_refuse (calculate_cost (tracker w) m i o) i o); [discriminate|].
  injection Hr as <-. cbn [status budget_ok].
  rewrite Ht. unfold ledger_after at 1 2 3 4. cbn.
  rewrite !lookup_insert_eq. cbn. unfold cost_of.
  match goal with
  | |- context [negb ?b] => destruct b eqn:E
  end; cbn; rewrite ?E; cbn; (split; [reflexivity|]);
    rewrite <- Ht; try reflexivity.
  all: match goal with
       | |- context [if ?b then _ else _] => destruct b
       end; reflexivity.
Qed.

Lemma check_budget_before_call_agrees_witness :
  let w := fst (start_session "s" 0 true true (init false default_config)) in
  let c := track_usage "s" "gpt-realtime" 30000 15000 5 true w in
  exists r, snd c = Returned r /\ budget_ok (status r) = false /\
    snd (check_budget_before_call "s" 5 (fst c)) = Returned false.
Proof.
  intros w c.
  assert (H : exists r, snd c = Returned r /\ budget_ok (status r) = false).
  { eexists. split; vm_compute; reflexivity. }
  destruct H as (r & Hr & Hb). exists r. split; [exact Hr|]. split; [exact Hb|].
  pose proof (proj1 (check_budget_before_call_agrees w "s" "gpt-realtime" 30000 15000 5
                       true r Hr)) as H.
  rewrite Hb in H. exact H.
Defined.

(** ** The middleware *)

Lemma middleware_enabled_eq (scope_type : string) (now : datetime) (app : M unit)
    (w : World) :
  CostProtectionMiddleware_call true scope_type now app w =
  let w1 := fst (check_circuit_breaker now w) in
  if circuit_breaker_active (tracker w1) && String.eqb scope_type "http"
  then (w1, Returned (Rejected503 (circuit_breaker_reset_time (tracker w1))))
  else forwarded (app w1).
Proof.
  unfold CostProtectionMiddleware_call, forwarded. cbn [negb].
  unfold_M. rewrite check_circuit_breaker_eq. cbn [fst snd].
  match goal with
  | |- context [circuit_breaker_active (tracker ?x)] => set (w1 := x)
  end.
  destruct (circuit_breaker_active (tracker w1)); cbn [andb].
  - destruct (String.eqb scope_type "http"); [reflexivity|].
    destruct (app w1) as [w2 [u|e]]; reflexivity.
  - destruct (app w1) as [w2 [u|e]]; reflexivity.
Qed.

(** X9. With cost protection enabled, an http request is answered 503 by
    the middleware exactly when the breaker is active and, after the poll
    the middleware makes, still is: its reset time lies ahead (or is
    missing).  Then the application is not called, nothing in the world
    changes and the body carries the reset time.  Otherwise the request
    reaches the application with the breaker closed. *)
Theorem middleware_rejects_http (w : World) (now : datetime) (app : M unit) :
  let after := CostProtectionMiddleware_call true "http" now app w in
  let s := tracker w in
  let blocked :=
    circuit_breaker_active s = true /\
    forall t, circuit_breaker_reset_time s = Some t -> now < t in
  (blocked -> after = (w, Returned (Rejected503 (circuit_breaker_reset_time s)))) /\
  (~ blocked ->
     after = forwarded (app (fst (check_circuit_breaker now w))) /\
     circuit_breaker_active (tracker (fst (check_circuit_breaker now w))) = false).
Proof.
  intros after s blocked. subst after. rewrite middleware_enabled_eq.
  rewrite check_circuit_breaker_eq. cbn [fst]. cbn zeta. fold s.
  change (String.eqb "http" "http") with true.
  destruct (circuit_breaker_active s) eqn:Ea.
  - destruct (circuit_breaker_reset_time s) as [t|] eqn:Er.
    + destruct (Z.leb_spec t now) as [Hle|Hgt].
      * split.
        -- intros [_ Hb]. specialize (Hb t eq_refl). lia.
        -- intros _. cbn. split; reflexivity.
      * split.
        -- intros _. fold s. rewrite Ea, Er. reflexivity.
        -- intros Hn. exfalso. apply Hn. split; [reflexivity|].
           intros t' Ht'. injection Ht' as <-. exact Hgt.
    + split.
      * intros _. fold s. rewrite Ea, Er. reflexivity.
      * intros Hn. exfalso. apply Hn. split; [reflexivity|]. discriminate.
  - split.
    + intros [Hf _]. discriminate.
    + intros _. fold s. rewrite Ea. split; reflexivity.
Qed.

Lemma middleware_rejects_http_witness :
  let w := fst (activate_circuit_breaker 0 (init false default_config)) in
  let app := start_session "from-app" 7 true true in
  CostProtectionMiddleware_call true "http" 7 app w
    = (w, Returned (Rejected503 (Some 3600000000))) /\
  snd (CostProtectionMiddleware_call true "http" 3600000000 app w) = Returned Forwarded.
Proof.
  intros w app.
  destruct (middleware_rejects_http w 7 app) as [Hrej _].
  split.
  - apply Hrej. split; [reflexivity|].
    intros t Ht. vm_compute in Ht. injection Ht as <-. reflexivity.
  - vm_compute. reflexivity.
Defined.

(** X10. The middleware never answers a request whose scope type is not
    "http" (a websocket): with the breaker active or not, the request
    reaches the application, after the poll of the breaker.  With cost
    protection disabled every request reaches the application and the
    breaker is not polled. *)
Theorem middleware_forwards_other_scopes (w : World) (scope_type : string)
    (now : datetime) (app : M unit) :
  scope_type <> "http"%string ->
  CostProtectionMiddleware_call true scope_type now app w
    = forwarded (app (fst (check_circuit_breaker now w))) /\
  CostProtectionMiddleware_call false scope_type now app w = forwarded (app w) /\
  CostProtectionMiddleware_call false "http" now app w = forwarded (app w).
Proof.
  intros Hne. split; [|split].
  - rewrite middleware_enabled_eq. cbn zeta.
    destruct (String.eqb_spec scope_type "http") as [Heq|_]; [contradiction|].
    rewrite andb_false_r. reflexivity.
  - unfold CostProtectionMiddleware_call, forwarded. cbn [negb]. unfold_M.
    destruct (app w) as [w1 [u|e]]; reflexivity.
  - unfold CostProtectionMiddleware_call, forwarded. cbn [negb]. unfold_M.
    destruct (app w) as [w1 [u|e]]; reflexivity.
Qed.

Lemma middleware_forwards_other_scopes_witness :
  let w := fst (activate_circuit_breaker 0 (init false default_config)) in
  let app := start_session "ws-session" 7 true true in
  circuit_breaker_active (tracker w) = true /\
  snd (CostProtectionMiddleware_call true "websocket" 7 app w) = Returned Forwarded /\
  is_Some (session_start_times
             (tracker (fst (CostProtectionMiddleware_call true "websocket" 7 app w)))
           !! "ws-session").
Proof.
  intros w app.
  assert (Hne : "websocket"%string <> "http"%string) by discriminate.
  destruct (middleware_forwards_other_scopes w "websocket" 7 app Hne) as (H & _ & _).
  split; [reflexivity|]. rewrite H. split; vm_compute; eauto.
Defined.

(** ** The wrapper around an API call *)





(** ** More on what a step does *)

Lemma track_usage_gauge (id m : string) (i o : Z) (now : datetime) (h : bool) (w : World) :
  active_sessions (metrics (fst (track_usage id m i o now h w)))
    = active_sessions (metrics w) /\
  session_duration (metrics (fst (track_usage id m i o now h w)))
    = session_duration (metrics w).
Proof.
  unfold track_usage, api_cost_total_inc, token_usage_inc, Counter_inc, redis_call.
  unfold_M. cbn.
  destruct (Qltb (calculate_cost (tracker w) m i o) 0); cbn; [split; reflexivity|].
  destruct (Qltb (inject_Z i) 0); cbn; [split; reflexivity|].
  destruct (Qltb (inject_Z o) 0); cbn; [split; reflexivity|].
  destruct (redis_client (tracker w)); [destruct h|]; cbn;
    rewrite check_budget_eq; cbn;
    match goal with |- context [if ?b then _ else _] => destruct b end;
    split; reflexivity.
Qed.

Lemma track_usage_redis (id m : string) (i o : Z) (now : datetime) (h : bool) (w : World) :
  let s := tracker w in
  let s' := ledger_after id m i o s in
  let cmd := HSET (session_key id)
               [("cost", RFloat (cost_of s' id));
                ("input_tokens", RInt (input (tokens_of id (session_tokens s'))));
                ("output_tokens", RInt (output (tokens_of id (session_tokens s'))))] in
  redis (fst (track_usage id m i o now h w)) =
  if counters_refuse (calculate_cost s m i o) i o then redis w
  else if redis_client s then
         if h then redis_apply cmd (redis_note cmd (redis w))
         else redis_note cmd (redis w)
       else redis w.
Proof.
  cbn zeta.
  assert (Hc : cost_of (ledger_after id m i o (tracker w)) id
               = (default 0%Q (session_costs (tracker w) !! id)
                  + calculate_cost (tracker w) m i o)%Q).
  { rewrite cost_of_ledger_after, String.eqb_refl. reflexivity. }
  rewrite Hc. clear Hc.
  unfold track_usage, api_cost_total_inc, token_usage_inc, Counter_inc, redis_call,
    counters_refuse.
  unfold_M. cbn.
  destruct (Qltb (calculate_cost (tracker w) m i o) 0); cbn; [reflexivity|].
  destruct (Qltb (inject_Z i) 0); cbn; [reflexivity|].
  destruct (Qltb (inject_Z o) 0); cbn; [reflexivity|].
  destruct (redis_client (tracker w)); [destruct h|]; cbn;
    rewrite check_budget_eq; cbn;
    match goal with |- context [if ?b then _ else _] => destruct b end;
    reflexivity.
Qed.

Lemma start_session_world (id : string) (now : datetime) (h e : bool) (w : World) :
  let hset := HSET (session_key id)
                [("start_time", RTime now); ("cost", RFloat 0);
                 ("input_tokens", RInt 0); ("output_tokens", RInt 0)] in
  let expire := EXPIRE (session_key id)
                  (max_session_duration_minutes (config (tracker w)) * 60 + 300) in
  metrics (fst (start_session id now h e w))
    = set_active_sessions (active_sessions (metrics w) + 1) (metrics w) /\
  redis (fst (start_session id now h e w)) =
    if redis_client (tracker w) then
      if h then
        let r1 := redis_apply hset (redis_note hset (redis w)) in
        if e then redis_apply expire (redis_note expire r1)
        else redis_note expire r1
      else redis_note hset (redis w)
    else redis w.
Proof.
  unfold start_session, active_sessions_inc, redis_call. unfold_M. cbn.
  destruct (redis_client (tracker w)); [destruct h; [destruct e|]|];
    split; reflexivity.
Qed.

Lemma end_session_world (id : string) (now : datetime) (d : bool) (w : World)
    (started : datetime) :
  session_start_times (tracker w) !! id = Some started ->
  metrics (fst (end_session id now d w))
    = set_active_sessions (active_sessions (metrics w) - 1)
        (set_session_duration
           (("completed"%string, total_seconds (now - started))
              :: session_duration (metrics w)) (metrics w)) /\
  redis (fst (end_session id now d w)) =
    if redis_client (tracker w) then
      if d then redis_apply (DELETE (session_key id))
                  (redis_note (DELETE (session_key id)) (redis w))
      else redis_note (DELETE (session_key id)) (redis w)
    else redis w.
Proof.
  intros H. unfold end_session, session_duration_observe, active_sessions_dec,
    redis_call.
  unfold_M. cbn. rewrite H. cbn.
  destruct (redis_client (tracker w)); [destruct d|]; split; reflexivity.
Qed.

Lemma check_budget_world (id : string) (c : Q) (now : datetime) (w : World) :
  active_sessions (metrics (fst (check_budget id c now w))) = active_sessions (metrics w) /\
  redis (fst (check_budget id c now w)) = redis w.
Proof.
  rewrite check_budget_eq. cbn [fst].
  match goal with |- context [if ?b then _ else _] => destruct b end;
    split; reflexivity.
Qed.

Lemma check_circuit_breaker_world (now : datetime) (w : World) :
  metrics (fst (check_circuit_breaker now w)) = metrics w /\
  redis (fst (check_circuit_breaker now w)) = redis w /\
  session_costs (tracker (fst (check_circuit_breaker now w))) = session_costs (tracker w) /\
  session_tokens (tracker (fst (check_circuit_breaker now w))) = session_tokens (tracker w).
Proof.
  rewrite check_circuit_breaker_eq. cbn [fst].
  destruct (circuit_breaker_active (tracker w)); [|repeat split; reflexivity].
  destruct (circuit_breaker_reset_time (tracker w)) as [t|]; [|repeat split; reflexivity].
  destruct (t <=? now); repeat split; reflexivity.
Qed.

Lemma step_session_costs (o : op) (w : World) :
  session_costs (tracker (step o w)) =
  match o with
  | StartSession id _ _ _ => <[id := 0%Q]> (session_costs (tracker w))
  | EndSession id _ _ =>
      match session_start_times (tracker w) !! id with
      | Some _ => delete id (session_costs (tracker w))
      | None => session_costs (tracker w)
      end
  | TrackUsage id m i o _ _ =>
      <[id := (cost_of (tracker w) id + calculate_cost (tracker w) m i o)%Q]>
        (session_costs (tracker w))
  | _ => session_costs (tracker w)
  end.
Proof.
  destruct o; cbn [step].
  - rewrite start_session_tracker. reflexivity.
  - destruct (session_start_times (tracker w) !! session_id) eqn:E.
    + rewrite end_session_tracker by eauto. reflexivity.
    + rewrite end_session_unknown by assumption. reflexivity.
  - rewrite track_usage_tracker. reflexivity.
  - rewrite check_budget_tracker. reflexivity.
  - reflexivity.
  - apply check_circuit_breaker_world.
Qed.

Lemma step_session_tokens (o : op) (w : World) :
  session_tokens (tracker (step o w)) =
  match o with
  | EndSession id _ _ =>
      match session_start_times (tracker w) !! id with
      | Some _ => delete id (session_tokens (tracker w))
      | None => session_tokens (tracker w)
      end
  | TrackUsage id m i o _ _ => add_output id o (add_input id i (session_tokens (tracker w)))
  | _ => session_tokens (tracker w)
  end.
Proof.
  destruct o; cbn [step].
  - rewrite start_session_tracker. reflexivity.
  - destruct (session_start_times (tracker w) !! session_id) eqn:E.
    + rewrite end_session_tracker by eauto. reflexivity.
    + rewrite end_session_unknown by assumption. reflexivity.
  - rewrite track_usage_tracker. reflexivity.
  - rewrite check_budget_tracker. reflexivity.
  - reflexivity.
  - apply check_circuit_breaker_world.
Qed.

Lemma step_active_sessions (o : op) (w : World) :
  active_sessions (metrics (step o w)) =
  match o with
  | StartSession _ _ _ _ => active_sessions (metrics w) + 1
  | EndSession id _ _ =>
      match session_start_times (tracker w) !! id with
      | Some _ => active_sessions (metrics w) - 1
      | None => active_sessions (metrics w)
      end
  | _ => active_sessions (metrics w)
  end.
Proof.
  destruct o; cbn [step].
  - rewrite (proj1 (start_session_world _ _ _ _ _)). reflexivity.
  - destruct (session_start_times (tracker w) !! session_id) eqn:E.
    + rewrite (proj1 (end_session_world _ _ _ _ _ E)). reflexivity.
    + rewrite end_session_unknown by assumption. reflexivity.
  - apply track_usage_gauge.
  - apply check_budget_world.
  - reflexivity.
  - rewrite (proj1 (check_circuit_breaker_world _ _)). reflexivity.
Qed.

Lemma step_no_client (o : op) (w : World) :
  redis_client (tracker w) = false -> redis (step o w) = redis w.
Proof.
  intros Hc. destruct o; cbn [step].
  - rewrite (proj2 (start_session_world _ _ _ _ _)), Hc. reflexivity.
  - destruct (session_start_times (tracker w) !! session_id) eqn:E.
    + rewrite (proj2 (end_session_world _ _ _ _ _ E)), Hc. reflexivity.
    + rewrite end_session_unknown by assumption. reflexivity.
  - rewrite track_usage_redis. cbn zeta. rewrite Hc.
    destruct (counters_refuse _ _ _); reflexivity.
  - apply check_budget_world.
  - reflexivity.
  - apply check_circuit_breaker_world.
Qed.

(** ** Invariants of a run *)

Lemma restarts_nonneg (ops : list op) (w : World) : 0 <= restarts ops w.
Proof.
  revert w. induction ops as [|o ops IH]; intros w; cbn [restarts]; [lia|].
  specialize (IH (step o w)).
  destruct o; try lia.
  destruct (session_start_times (tracker w) !! session_id); lia.
Qed.

Lemma size_delete_present {A} (m : gmap string A) (i : string) :
  is_Some (m !! i) -> Z.of_nat (size (delete i m)) = Z.of_nat (size m) - 1.
Proof.
  intros [x Hx].
  assert (Hm : size m = S (size (delete i m))).
  { rewrite <- (insert_delete_id m i x Hx) at 1.
    apply map_size_insert_None. apply lookup_delete_eq. }
  lia.
Qed.

Lemma step_gauge_balance (o : op) (w : World) :
  active_sessions (metrics (step o w))
    - Z.of_nat (size (session_start_times (tracker (step o w))))
  = active_sessions (metrics w) - Z.of_nat (size (session_start_times (tracker w)))
    + restarts [o] w.
Proof.
  rewrite step_active_sessions, step_start_times. cbn [restarts].
  destruct o; try lia.
  - destruct (session_start_times (tracker w) !! session_id) eqn:E.
    + rewrite map_size_insert_Some by eauto. lia.
    + rewrite map_size_insert_None by assumption. lia.
  - destruct (session_start_times (tracker w) !! session_id) eqn:E.
    + rewrite size_delete_present by eauto. lia.
    + rewrite map_size_delete_None by assumption. lia.
Qed.

Lemma run_gauge_balance (ops : list op) (w : World) :
  active_sessions (metrics (run ops w))
    - Z.of_nat (size (session_start_times (tracker (run ops w))))
  = active_sessions (metrics w) - Z.of_nat (size (session_start_times (tracker w)))
    + restarts ops w.
Proof.
  revert w. induction ops as [|o ops IH]; intros w.
  - cbn. lia.
  - rewrite run_cons, IH.
    pose proof (step_gauge_balance o w) as H. cbn [restarts] in *. lia.
Qed.

(** X13. After every run of operations from a fresh tracker, the
    active-session gauge is the number of sessions that have a start time
    plus the number of [start_session] calls that hit a session already
    open: the gauge never undercounts the open sessions, and it is exact
    when no session was started twice. *)
Theorem active_sessions_gauge (client : bool) (cfg : CostProtectionConfig)
    (ops : list op) :
  let w := run ops (init client cfg) in
  let open := Z.of_nat (size (session_start_times (tracker w))) in
  active_sessions (metrics w) = open + restarts ops (init client cfg) /\
  open <= active_sessions (metrics w) /\
  (restarts ops (init client cfg) = 0 -> active_sessions (metrics w) = open).
Proof.
  intros w open.
  pose proof (run_gauge_balance ops (init client cfg)) as H.
  fold w in H. fold open in H.
  change (active_sessions (metrics (init client cfg))) with 0 in H.
  change (size (session_start_times (tracker (init client cfg)))) with 0%nat in H.
  pose proof (restarts_nonneg ops (init client cfg)).
  repeat split; lia.
Qed.

Lemma step_ledger_wf (o : op) (w : World) :
  ledger_wf (tracker w) -> ledger_wf (tracker (step o w)).
Proof.
  unfold ledger_wf. intros Hwf id'.
  rewrite step_session_costs, step_session_tokens, step_start_times.
  specialize (Hwf id').
  destruct o; try exact Hwf.
  - destruct (decide (session_id = id')) as [->|Hne].
    + rewrite !lookup_insert_eq. eauto.
    + rewrite !lookup_insert_ne by exact Hne. exact Hwf.
  - destruct (session_start_times (tracker w) !! session_id) eqn:E.
    + destruct (decide (session_id = id')) as [->|Hne].
      * rewrite !lookup_delete_eq. intros [[x Hx]|[x Hx]]; discriminate.
      * rewrite !lookup_delete_ne by exact Hne. exact Hwf.
    + rewrite (delete_id _ _ E). exact Hwf.
  - destruct (decide (session_id = id')) as [->|Hne].
    + rewrite lookup_insert_eq. eauto.
    + rewrite lookup_insert_ne by exact Hne.
      rewrite tokens_after_other by exact Hne. exact Hwf.
Qed.

(** X14. After every run of operations from a fresh tracker, every session
    that has a start time or a token count also has a cost entry. *)
Theorem ledger_domains (client : bool) (cfg : CostProtectionConfig) (ops : list op)
    (id : string) :
  let s := tracker (run ops (init client cfg)) in
  (is_Some (session_start_times s !! id) -> is_Some (session_costs s !! id)) /\
  (is_Some (session_tokens s !! id) -> is_Some (session_costs s !! id)).
Proof.
  intros s.
  assert (Hwf : ledger_wf s).
  { subst s. apply (run_invariant (fun w => ledger_wf (tracker w))).
    - intros o w. apply step_ledger_wf.
    - intros id' [[x Hx]|[x Hx]]; cbn in Hx; rewrite lookup_empty in Hx; discriminate. }
  split; intros H; apply Hwf; [left|right]; exact H.
Qed.

(** X15. A tracker built without a Redis client never talks to the store:
    after every run of operations nothing was sent and the store is as it
    was. *)
Theorem no_client_no_redis (cfg : CostProtectionConfig) (ops : list op) (w : World) :
  redis_client (tracker w) = false ->
  redis (run ops w) = redis w /\
  redis_sent (redis (run ops (init false cfg))) = [].
Proof.
  intros Hc.
  assert (Hgen : forall w0, redis_client (tracker w0) = false ->
                   redis (run ops w0) = redis w0).
  { induction ops as [|o ops IH]; intros w0 H0; [reflexivity|].
    rewrite run_cons, IH.
    - apply step_no_client. exact H0.
    - rewrite (proj2 (step_config o w0)). exact H0. }
  split; [apply Hgen; exact Hc|].
  rewrite Hgen by reflexivity. reflexivity.
Qed.

Lemma no_client_no_redis_witness :
  let ops := [StartSession "s" 0 true true; TrackUsage "s" "gpt-5" 10 10 1 true;
              EndSession "s" 2 true] in
  redis (run ops (init false default_config)) = redis (init false default_config).
Proof.
  intros ops.
  exact (proj1 (no_client_no_redis default_config ops (init false default_config) eq_refl)).
Defined.

Lemma step_quiet (reset : datetime) (o : op) (w : World) :
  circuit_breaker_active (tracker w) = true ->
  circuit_breaker_reset_time (tracker w) = Some reset ->
  quiet_before reset o ->
  circuit_breaker_active (tracker (step o w)) = true /\
  circuit_breaker_reset_time (tracker (step o w)) = Some reset.
Proof.
  intros Ha Hr Hq. destruct (step_breaker_fields o w) as [H1 H2].
  rewrite H1, H2, Ha, Hr. destruct o; cbn [quiet_before] in Hq; cbn; auto.
  - contradiction.
  - destruct (Z.leb_spec reset now); [lia|]. auto.
Qed.

(** X16. An open breaker stays open, with the same reset time, through
    every run of operations that has no new activation and no poll at or
    after the reset time; every admission check after such a run fails.
    The first poll at or after the reset time closes it. *)
Theorem breaker_holds_until_reset (w : World) (reset now : datetime) (ops : list op)
    (id : string) (c : Q) :
  circuit_breaker_active (tracker w) = true ->
  circuit_breaker_reset_time (tracker w) = Some reset ->
  Forall (quiet_before reset) ops ->
  let w' := run ops w in
  circuit_breaker_active (tracker w') = true /\
  circuit_breaker_reset_time (tracker w') = Some reset /\
  (exists st, snd (check_budget id c now w') = Returned st /\ budget_ok st = false) /\
  (reset <= now ->
   circuit_breaker_active (tracker (step (CheckCircuitBreaker now) w')) = false).
Proof.
  intros Ha Hr Hall w'.
  assert (H : circuit_breaker_active (tracker w') = true /\
              circuit_breaker_reset_time (tracker w') = Some reset).
  { subst w'. revert w Ha Hr. induction Hall as [|o ops Ho _ IH]; intros w Ha Hr.
    - split; assumption.
    - rewrite run_cons. destruct (step_quiet reset o w Ha Hr Ho) as [Ha' Hr'].
      apply IH; assumption. }
  destruct H as [Ha' Hr']. split; [exact Ha'|]. split; [exact Hr'|]. split.
  - eexists. rewrite check_budget_eq. cbn [snd]. split; [reflexivity|].
    unfold budget_status. cbn [budget_ok]. rewrite Ha'. cbn.
    apply andb_false_r.
  - intros Hle. destruct (step_breaker_fields (CheckCircuitBreaker now) w') as [H1 _].
    rewrite H1, Ha', Hr'. cbn. destruct (Z.leb_spec reset now); [reflexivity|lia].
Qed.

Lemma breaker_holds_until_reset_witness :
  let w := fst (activate_circuit_breaker 0 (init false default_config)) in
  let ops := [StartSession "s" 1 true true; CheckCircuitBreaker 3599999999;
              TrackUsage "s" "gpt-5" 10 10 5 true] in
  circuit_breaker_active (tracker (run ops w)) = true /\
  circuit_breaker_active
    (tracker (step (CheckCircuitBreaker 3600000000) (run ops w))) = false.
Proof.
  intros w ops.
  assert (Hall : Forall (quiet_before 3600000000) ops).
  { repeat constructor. }
  destruct (breaker_holds_until_reset w 3600000000 3600000000 ops "s" 0
              eq_refl eq_refl Hall) as (Ha & _ & _ & Hclose).
  split; [exact Ha|]. apply Hclose. lia.
Defined.

(** ** Accounting *)

Lemma tokens_of_after (id id' : string) (i o : Z) (m : gmap string TokenCount) :
  tokens_of id (add_output id' o (add_input id' i m)) =
  if String.eqb id' id
  then {| input := input (tokens_of id m) + i; output := output (tokens_of id m) + o |}
  else tokens_of id m.
Proof.
  destruct (String.eqb_spec id' id) as [->|Hne].
  - unfold tokens_of at 1. rewrite tokens_after_same. reflexivity.
  - unfold tokens_of. rewrite tokens_after_other by exact Hne. reflexivity.
Qed.










(** ** Starting, restarting and ending *)

(** X19. For a session with no entry in the ledger, [start_session]
    followed by [end_session] leaves the tracker exactly as it was and the
    active-session gauge at its old value; the duration histogram gains one
    observation, labelled completed, of the seconds between the two calls;
    and with a Redis client whose commands succeed the store holds no hash
    and no time to live for the session afterwards. *)
Theorem start_end_round_trip (w : World) (id : string) (now1 now2 : datetime)
    (h e d : bool) :
  ~ has_entry (tracker w) id ->
  let w1 := fst (start_session id now1 h e w) in
  let w2 := fst (end_session id now2 d w1) in
  tracker w2 = tracker w /\
  active_sessions (metrics w2) = active_sessions (metrics w) /\
  session_duration (metrics w2)
    = ("completed"%string, total_seconds (now2 - now1)) :: session_duration (metrics w) /\
  (redis_client (tracker w) = true -> d = true ->
   redis_hashes (redis w2) !! session_key id = None /\
   redis_ttl (redis w2) !! session_key id = None).
Proof.
  intros Hno w1 w2.
  assert (H1 : session_costs (tracker w) !! id = None).
  { destruct (session_costs (tracker w) !! id) eqn:E; [|reflexivity].
    exfalso. apply Hno. left. eauto. }
  assert (H2 : session_tokens (tracker w) !! id = None).
  { destruct (session_tokens (tracker w) !! id) eqn:E; [|reflexivity].
    exfalso. apply Hno. right. left. eauto. }
  assert (H3 : session_start_times (tracker w) !! id = None).
  { destruct (session_start_times (tracker w) !! id) eqn:E; [|reflexivity].
    exfalso. apply Hno. right. right. eauto. }
  assert (Ht1 : tracker w1 =
    set_session_costs (<[id := 0%Q]> (session_costs (tracker w)))
      (set_session_start_times (<[id := now1]> (session_start_times (tracker w)))
         (tracker w))).
  { subst w1. apply start_session_tracker. }
  assert (Hs1 : session_start_times (tracker w1) !! id = Some now1).
  { rewrite Ht1. cbn. apply lookup_insert_eq. }
  destruct (end_session_world id now2 d w1 now1 Hs1) as [Hm Hr].
  fold w2 in Hm, Hr.
  destruct (start_session_world id now1 h e w) as [Hm1 _]. fold w1 in Hm1.
  split; [|split; [|split]].
  - subst w2. rewrite end_session_tracker by (rewrite Hs1; eauto).
    rewrite Ht1. unfold set_session_tokens, set_session_costs, set_session_start_times.
    cbn. rewrite (delete_insert_id _ _ _ H1), (delete_insert_id _ _ _ H3),
      (delete_id _ _ H2).
    destruct (tracker w). reflexivity.
  - rewrite Hm, Hm1. cbn. lia.
  - rewrite Hm, Hm1. reflexivity.
  - intros Hc ->. rewrite Hr.
    assert (Hc1 : redis_client (tracker w1) = true) by (rewrite Ht1; exact Hc).
    rewrite Hc1. cbn. rewrite !lookup_delete_eq. split; reflexivity.
Qed.

Lemma start_end_round_trip_witness :
  let w := fst (track_usage "other" "gpt-5" 10 10 0 true (init true default_config)) in
  let w2 := fst (end_session "s" 9 true (fst (start_session "s" 4 true true w))) in
  tracker w2 = tracker w /\
  session_duration (metrics w2) = [("completed"%string, total_seconds 5)].
Proof.
  intros w w2.
  assert (Hno : ~ has_entry (tracker w) "s").
  { intros [[x H]|[[x H]|[x H]]]; vm_compute in H; discriminate H. }
  destruct (start_end_round_trip w "s" 4 9 true true true Hno) as (Ht & _ & Hd & _).
  split; [exact Ht|exact Hd].
Defined.

(** X20. [start_session] on a session that has already reported usage
    resets its cost but not its token counters: the next [track_usage]
    leaves the ledger with the cost of that call alone, and with token
    counters that still include the counts from before the restart. *)
Theorem restart_keeps_token_counters (w : World) (id m : string) (i o : Z)
    (now now' : datetime) (h e h' : bool) :
  let w1 := fst (start_session id now h e w) in
  let w2 := fst (track_usage id m i o now' h' w1) in
  cost_of (tracker w1) id = 0%Q /\
  tokens_of id (session_tokens (tracker w1)) = tokens_of id (session_tokens (tracker w)) /\
  cost_of (tracker w2) id = (0 + calculate_cost (tracker w) m i o)%Q /\
  tokens_of id (session_tokens (tracker w2)) =
    {| input := input (tokens_of id (session_tokens (tracker w))) + i;
       output := output (tokens_of id (session_tokens (tracker w))) + o |}.
Proof.
  intros w1 w2.
  assert (Ht1 : tracker w1 =
    set_session_costs (<[id := 0%Q]> (session_costs (tracker w)))
      (set_session_start_times (<[id := now]> (session_start_times (tracker w)))
         (tracker w))).
  { subst w1. apply start_session_tracker. }
  assert (Hc1 : cost_of (tracker w1) id = 0%Q).
  { rewrite Ht1. unfold cost_of. cbn. rewrite lookup_insert_eq. reflexivity. }
  assert (Hk1 : session_tokens (tracker w1) = session_tokens (tracker w)).
  { rewrite Ht1. reflexivity. }
  split; [exact Hc1|]. split; [rewrite Hk1; reflexivity|].
  subst w2. rewrite track_usage_tracker. split.
  - rewrite cost_of_ledger_after, String.eqb_refl, Hc1.
    rewrite (calculate_cost_config (tracker w1) (tracker w)); [reflexivity|].
    rewrite Ht1. reflexivity.
  - unfold ledger_after. cbn. rewrite tokens_of_after, String.eqb_refl, Hk1.
    reflexivity.
Qed.

(** ** The mirror in the external store *)

(** X21. With a Redis client, non-negative rates and non-negative counts, a
    [track_usage] call whose command succeeds leaves in the store, under the
    key of the session, the cost and the two token counters that the ledger
    holds after the call; it never sets a time to live.  When the command
    fails the store keeps what it had and the ledger is charged all the
    same.  When a count is negative nothing is sent to the store at all. *)
Theorem track_usage_mirror (w : World) (id m : string) (i o : Z) (now : datetime) :
  redis_client (tracker w) = true ->
  rates_nonneg (config (tracker w)) -> 0 <= i -> 0 <= o ->
  let w' := fst (track_usage id m i o now true w) in
  let wf := fst (track_usage id m i o now false w) in
  let s' := tracker w' in
  (exists hash,
     redis_hashes (redis w') !! session_key id = Some hash /\
     hash !! "cost"%string = Some (RFloat (cost_of s' id)) /\
     hash !! "input_tokens"%string
       = Some (RInt (input (tokens_of id (session_tokens s')))) /\
     hash !! "output_tokens"%string
       = Some (RInt (output (tokens_of id (session_tokens s'))))) /\
  redis_ttl (redis w') = redis_ttl (redis w) /\
  redis_hashes (redis wf) = redis_hashes (redis w) /\
  tracker wf = s' /\
  (forall i', i' < 0 -> forall h,
     redis (fst (track_usage id m i' o now h w)) = redis w).
Proof.
  intros Hc Hr Hi Ho w' wf s'.
  assert (Hacc : counters_refuse (calculate_cost (tracker w) m i o) i o = false).
  { apply counters_accept; [apply calculate_cost_nonneg|..]; assumption. }
  assert (Hs' : s' = ledger_after id m i o (tracker w)).
  { subst s' w'. apply track_usage_tracker. }
  split; [|split; [|split; [|split]]].
  - subst w'. rewrite track_usage_redis. cbn zeta. rewrite Hacc, Hc.
    rewrite <- Hs'. cbn [redis_apply redis_hashes redis_note].
    eexists. split; [apply lookup_insert_eq|].
    cbn [list_to_map foldr uncurry].
    split; [|split].
    + apply lookup_union_Some_l. apply lookup_insert_eq.
    + apply lookup_union_Some_l.
      rewrite lookup_insert_ne by discriminate. apply lookup_insert_eq.
    + apply lookup_union_Some_l.
      rewrite !lookup_insert_ne by discriminate. apply lookup_insert_eq.
  - subst w'. rewrite track_usage_redis. cbn zeta. rewrite Hacc, Hc. reflexivity.
  - subst wf. rewrite track_usage_redis. cbn zeta. rewrite Hacc, Hc. reflexivity.
  - subst wf. rewrite Hs'. apply track_usage_tracker.
  - intros i' Hneg h. rewrite track_usage_redis. cbn zeta.
    assert (Href : counters_refuse (calculate_cost (tracker w) m i' o) i' o = true).
    { unfold counters_refuse. rewrite !orb_true_iff, !Qltb_lt.
      change 0%Q with (inject_Z 0). rewrite <- !Zlt_Qlt. tauto. }
    rewrite Href. reflexivity.
Qed.

Lemma track_usage_mirror_witness :
  let w := fst (start_session "s" 0 true true (init true default_config)) in
  let w' := fst (track_usage "s" "gpt-5" 1000 2000 1 true w) in
  exists hash,
    redis_hashes (redis w') !! session_key "s" = Some hash /\
    hash !! "input_tokens"%string = Some (RInt 1000) /\
    redis_ttl (redis w') !! session_key "s" = Some 2100.
Proof.
  intros w w'.
  assert (Hr : rates_nonneg (config (tracker w))).
  { unfold rates_nonneg. cbn. repeat split; discriminate. }
  destruct (track_usage_mirror w "s" "gpt-5" 1000 2000 1 eq_refl Hr
              ltac:(lia) ltac:(lia)) as ((hash & Hh & _ & Hin & _) & Httl & _).
  exists hash. split; [exact Hh|]. split.
  - rewrite Hin. vm_compute. reflexivity.
  - fold w' in Httl. rewrite Httl. vm_compute. reflexivity.
Defined.

(** X22. The usage the weather functions report is always accepted: for a
    response of any length, with non-negative rates, the call returns, its
    model ("external-api") has no pricing entry and is billed at the
    gpt-5-mini rates for 50 input tokens and a quarter (rounded down) of
    the length in output tokens. *)
Theorem external_api_usage_billed (w : World) (id : string) (text_len : nat)
    (now : datetime) (h : bool) :
  rates_nonneg (config (tracker w)) ->
  exists r : UsageResult,
    snd (track_external_api_usage id text_len now h w) = Returned r /\
    output_tokens_of r = Z.of_nat text_len / 4 /\
    (call_cost r ==
     (50 # 1000000) * gpt5_mini_input_cost_per_1m (config (tracker w))
     + inject_Z (Z.of_nat text_len / 4) / 1000000
       * gpt5_mini_output_cost_per_1m (config (tracker w)))%Q /\
    (0 <= call_cost r)%Q.
Proof.
  intros Hr. unfold track_external_api_usage.
  assert (Ho : 0 <= Z.of_nat text_len / 4) by (apply Z.div_pos; lia).
  pose proof (calculate_cost_nonneg (tracker w) "external-api" 50 _ Hr
                ltac:(lia) Ho) as Hc.
  eexists. rewrite track_usage_outcome.
  assert (H50 : 0 <= 50) by lia.
  rewrite (counters_accept _ _ _ Hc H50 Ho).
  split; [reflexivity|]. cbn [output_tokens_of call_cost].
  split; [reflexivity|]. split; [|exact Hc].
  rewrite calculate_cost_priced.
  change (pricing_entry (config (tracker w)) "external-api")
    with (fallback_entry (config (tracker w))).
  unfold priced, fallback_entry. cbn [fst snd].
  assert (H : (inject_Z 50 / 1000000 == 50 # 1000000)%Q) by reflexivity.
  rewrite H. reflexivity.
Qed.

Lemma external_api_usage_billed_witness :
  let w := fst (start_session "s" 0 true true (init false default_config)) in
  exists r : UsageResult,
    snd (track_external_api_usage "s" 4003 1 true w) = Returned r /\
    output_tokens_of r = 1000 /\
    (call_cost r == 15150 # 1000000)%Q.
Proof.
  intros w.
  assert (Hr : rates_nonneg (config (tracker w))).
  { unfold rates_nonneg. cbn. repeat split; discriminate. }
  destruct (external_api_usage_billed w "s" 4003 1 true Hr) as (r & Hret & Hout & Hc & _).
  exists r. split; [exact Hret|]. split.
  - rewrite Hout. reflexivity.
  - rewrite Hc. vm_compute. reflexivity.
Defined.
